(** * app.py: a Streamlit front end that converts uploaded documents to markdown

    A shallow embedding of [src/app.py] together with the parts of the Python
    runtime and of the libraries that the script's control flow depends on:

    - [Py]: the [str] operations used by the script and by the library code;
    - [mimetypes]: [mimetypes.guess_type] of CPython 3.11 (strict mode);
    - [pathlib]: the [PurePosixPath] operations [Path(s)], [/], [str], [name]
      and [stem] of CPython 3.11;
    - [App]: the script itself, written in a state-and-exception monad over
      the file system, the Streamlit session state and the rendered page.

    Python [str] values are modelled as [string], read as UTF-8. *)

From Stdlib Require Import Ascii QArith.
From stdpp Require Import gmap strings list pretty.

Local Open Scope Z_scope.

(** ** Python string operations *)

Module Py.

(** [s.find(c)] for a one-character [c]: first index, or -1. *)
Fixpoint find (c : ascii) (s : string) : Z :=
  match s with
  | EmptyString => -1
  | String a s' =>
      if Ascii.eqb a c then 0
      else let i := find c s' in if i <? 0 then -1 else i + 1
  end.

(** [s.rfind(c)] for a one-character [c]: last index, or -1. *)
Fixpoint rfind (c : ascii) (s : string) : Z :=
  match s with
  | EmptyString => -1
  | String a s' =>
      let i := rfind c s' in
      if 0 <=? i then i + 1 else if Ascii.eqb a c then 0 else -1
  end.

Fixpoint take (n : nat) (s : string) : string :=
  match n, s with
  | S n', String a s' => String a (take n' s')
  | _, _ => EmptyString
  end.

Fixpoint drop (n : nat) (s : string) : string :=
  match n, s with
  | S n', String _ s' => drop n' s'
  | _, _ => s
  end.

(** [s[:i]] and [s[i:]] for an index [0 <= i]. *)
Definition upto (s : string) (i : Z) : string := take (Z.to_nat i) s.
Definition from (s : string) (i : Z) : string := drop (Z.to_nat i) s.

(** [c in s] for a one-character [c]. *)
Definition contains (c : ascii) (s : string) : bool := 0 <=? find c s.

Fixpoint startswith (s pre : string) : bool :=
  match pre, s with
  | EmptyString, _ => true
  | String a pre', String b s' => Ascii.eqb a b && startswith s' pre'
  | String _ _, EmptyString => false
  end.

Definition endswith (s suf : string) : bool :=
  (String.length suf <=? String.length s)%nat
  && String.eqb (drop (String.length s - String.length suf) s) suf.

(** [s.endswith((a, b, ...))] with a tuple of suffixes. *)
Definition endswith_any (s : string) (sufs : list string) : bool :=
  existsb (endswith s) sufs.

(** [s.split(sep)] for a one-character separator. *)
Fixpoint split (sep : ascii) (s : string) : list string :=
  match s with
  | EmptyString => [EmptyString]
  | String a s' =>
      if Ascii.eqb a sep then EmptyString :: split sep s'
      else match split sep s' with
           | x :: r => String a x :: r
           | [] => [String a EmptyString]
           end
  end.

(** [s.lstrip(c)] for a one-character [c]. *)
Fixpoint lstrip (c : ascii) (s : string) : string :=
  match s with
  | String a s' => if Ascii.eqb a c then lstrip c s' else s
  | EmptyString => EmptyString
  end.

(** [sep.join(l)]. *)
Definition join (sep : string) (l : list string) : string := String.concat sep l.

(** [s.lower()], on the ASCII letters.  Python also folds cased characters
    outside ASCII; the library code below compares lowered strings with
    ASCII table keys only. *)
Definition lower_ascii (a : ascii) : ascii :=
  let n := nat_of_ascii a in
  if ((65 <=? n) && (n <=? 90))%nat then ascii_of_nat (n + 32) else a.

Fixpoint lower (s : string) : string :=
  match s with
  | EmptyString => EmptyString
  | String a s' => String (lower_ascii a) (lower s')
  end.

(** A [dict] with string keys written as a literal. *)
Fixpoint lookup (d : list (string * string)) (k : string) : option string :=
  match d with
  | [] => None
  | (k', v) :: d' => if String.eqb k' k then Some v else lookup d' k
  end.

(** [str(n).zfill(w)], as produced by the numeric [strftime] fields. *)
Definition zfill (w : nat) (n : nat) : string :=
  let s := pretty n in
  String.string_of_list_ascii (replicate (w - String.length s) "0"%char) +:+ s.

End Py.

(** ** posixpath.splitext and urllib.parse._splittype *)

Module posixpath.

(** The scan of [genericpath._splitext] over [p[sepIndex+1:dotIndex]]: it
    splits at the last dot as soon as it meets a character that is not a
    dot. *)
Fixpoint has_nondot (s : string) : bool :=
  match s with
  | EmptyString => false
  | String a s' => if Ascii.eqb a "."%char then has_nondot s' else true
  end.

Definition splitext (p : string) : string * string :=
  let sepIndex := Py.rfind "/"%char p in
  let dotIndex := Py.rfind "."%char p in
  if (sepIndex <? dotIndex)
     && has_nondot (Py.upto (Py.from p (sepIndex + 1)) (dotIndex - (sepIndex + 1)))
  then (Py.upto p dotIndex, Py.from p dotIndex)
  else (p, EmptyString).

End posixpath.

Module urllib.

(** Index of the first character that is [/] or [:], with that character. *)
Fixpoint first_delim (s : string) : option (nat * ascii) :=
  match s with
  | EmptyString => None
  | String a s' =>
      if Ascii.eqb a "/"%char || Ascii.eqb a ":"%char then Some (0%nat, a)
      else match first_delim s' with
           | Some (i, d) => Some (S i, d)
           | None => None
           end
  end.

(** [_splittype(url)]: its regular expression matches, at the start of
    [url], one or more characters other than [/] and [:], then a colon, then
    the rest (DOTALL); the scheme is returned in lower case. *)
Definition _splittype (url : string) : option string * string :=
  match first_delim url with
  | Some (S i, d) =>
      if Ascii.eqb d ":"%char
      then (Some (Py.lower (Py.take (S i) url)), Py.drop (S (S i)) url)
      else (None, url)
  | _ => (None, url)
  end.

End urllib.

(** ** mimetypes.guess_type (CPython 3.11, strict) *)

Module mimetypes.

Definition suffix_map : list (string * string) :=
  [ (".svgz", ".svg.gz"); (".tgz", ".tar.gz"); (".taz", ".tar.gz");
    (".tz", ".tar.gz"); (".tbz2", ".tar.bz2"); (".txz", ".tar.xz") ].

Definition encodings_map : list (string * string) :=
  [ (".gz", "gzip"); (".Z", "compress"); (".bz2", "bzip2"); (".xz", "xz");
    (".br", "br") ].

Section guess.
(** The strict type table after [mimetypes.init()]: the built-in defaults
    and whatever the system's mime.types files add. *)
Variable types_map : string -> option string.

(** [while (ext_lower := ext.lower()) in self.suffix_map: ...] *)
Fixpoint suffix_loop (fuel : nat) (base ext : string) : string * string :=
  match fuel with
  | O => (base, ext)
  | S fuel' =>
      match Py.lookup suffix_map (Py.lower ext) with
      | Some repl =>
          let '(base', ext') := posixpath.splitext (base +:+ repl) in
          suffix_loop fuel' base' ext'
      | None => (base, ext)
      end
  end.

Definition guess_type_fuel (fuel : nat) (url : string) : option string * option string :=
  let '(scheme, url) := urllib._splittype url in
  if bool_decide (scheme = Some "data") then
    let comma := Py.find ","%char url in
    if comma <? 0 then (None, None)
    else
      let semi := Py.find ";"%char (Py.upto url comma) in
      let type := if 0 <=? semi then Py.upto url semi else Py.upto url comma in
      let type :=
        if Py.contains "="%char type || negb (Py.contains "/"%char type)
        then "text/plain" else type in
      (Some type, None)
  else
    let '(base, ext) := posixpath.splitext url in
    let '(base, ext) := suffix_loop fuel base ext in
    let '(encoding, base, ext) :=
      match Py.lookup encodings_map ext with
      | Some enc => let '(b, e) := posixpath.splitext base in (Some enc, b, e)
      | None => (None, base, ext)
      end in
    let ext := Py.lower ext in
    (types_map ext, encoding).

(** Every value of [suffix_map] ends in an extension that is not itself a
    key, so the loop body runs at most once ([suffix_loop_once] below);
    two rounds of fuel are more than the loop can use. *)
Definition guess_type (url : string) : option string * option string :=
  guess_type_fuel 2 url.

End guess.

End mimetypes.

(** ** pathlib.PurePosixPath (CPython 3.11) *)

Module pathlib.

(** [_root] and the components that follow the anchor. *)
Record Path := mkPath { root : string; parts : list string }.

Definition splitroot (part : string) : string * string :=
  if Py.startswith part "/" then
    let stripped_part := Py.lstrip "/"%char part in
    if bool_decide (String.length part - String.length stripped_part = 2)%nat
    then ("//", stripped_part) else ("/", stripped_part)
  else (EmptyString, part).

(** [Path(part)]. *)
Definition parse (part : string) : Path :=
  if String.eqb part EmptyString then mkPath EmptyString []
  else
    let '(root, rel) := splitroot part in
    mkPath root
      (List.filter (fun x => negb (String.eqb x EmptyString) && negb (String.eqb x "."))
         (Py.split "/"%char rel)).

(** [self / key] for a string [key]. *)
Definition truediv (self : Path) (key : string) : Path :=
  let p2 := parse key in
  if negb (String.eqb (root p2) EmptyString) then p2
  else mkPath (root self) (parts self ++ parts p2).

(** [str(self)]. *)
Definition str (self : Path) : string :=
  let s := root self +:+ Py.join "/" (parts self) in
  if String.eqb s EmptyString then "." else s.

Definition name (self : Path) : string := List.last (parts self) EmptyString.

Definition stem (self : Path) : string :=
  let name := name self in
  let i := Py.rfind "."%char name in
  if (0 <? i) && (i <? Z.of_nat (String.length name) - 1)
  then Py.upto name i else name.

End pathlib.

Notation "p // k" := (pathlib.truediv p k) (at level 40, left associativity).

(** ** The world the script runs in *)

(** A raised Python exception: its class and [str(e)]. *)
Record exn := mkExn { exn_class : string; exn_msg : string }.

Inductive result (A : Type) : Type :=
| Ok (a : A)
| Raise (e : exn).
Arguments Ok {A} a.
Arguments Raise {A} e.

(** The local file system, relative to the working directory: the
    directories that exist and the regular files with their contents, both
    keyed by path string. *)
Record filesystem := mkFs {
  fs_dirs : gset string;
  fs_files : gmap string string
}.

(** Values that [is_image_file] can return: [mimetype and ...] yields
    [None], the (empty) string itself, or the [bool] of [startswith]. *)
Inductive py_value :=
| PyNone
| PyStr (s : string)
| PyBool (b : bool).

Definition truthy (v : py_value) : bool :=
  match v with
  | PyNone => false
  | PyStr s => negb (String.eqb s EmptyString)
  | PyBool b => b
  end.

(** The file object handed out by [st.file_uploader]. *)
Record UploadedFile := mkUploadedFile {
  name : string;
  getbuffer : string
}.

(** The dict appended to [st.session_state.converted_files]. *)
Record converted_file := mkConverted {
  cf_name : string;
  cf_path : pathlib.Path;
  cf_content : string;
  cf_is_image : py_value
}.

(** [st.session_state] with the keys of [initialize_session_state]. *)
Record session_state := mkSession {
  uploaded_files : list UploadedFile;
  converted_files : list converted_file;
  combined_markdown : string;
  conversion_status : list (string * string);
  show_welcome : bool;
  dark_mode : bool;
  conversion_started : bool;
  needs_reset : bool
}.

(** What a script run puts on the page, in call order ([with] containers are
    recorded by their opening call). *)
Inductive element :=
| Page_config (layout page_title : string)
| Title (body : string)
| Subheader (body : string)
| Markdown (body : string)
| Divider
| Success (body : string)
| Info (body : string)
| Warning (body : string)
| Error (body : string)
| Toggle (label : string) (value : bool)
| Text_input (label : string)
| File_uploader (label : string)
| Button (label : string) (disabled : bool)
| Expander (label : string)
| Columns (n : nat)
| Image (path : string)
| Progress_placeholder
| Empty_placeholder
| Download_button (label data file_name mime key : string).

(** The AI client and the conversion library. *)
Record OpenAI := mkOpenAI { api_key : string }.

Record llm := mkLlm { llm_client : OpenAI; llm_model : string }.

Inductive call :=
| OpenAI_init (api_key : string)
| OpenAI_request (client : OpenAI)
| MarkItDown_init (cfg : option llm)
| MarkItDown_convert (cfg : option llm) (path : string).

Record world := mkWorld {
  fs : filesystem;
  session : session_state;
  page : list element;
  progress_bar : option Q;
  status_container : option element;
  calls : list call
}.

Definition set_fs (f : filesystem) (w : world) : world :=
  mkWorld f (session w) (page w) (progress_bar w) (status_container w) (calls w).
Definition set_session (s : session_state) (w : world) : world :=
  mkWorld (fs w) s (page w) (progress_bar w) (status_container w) (calls w).
Definition set_page (p : list element) (w : world) : world :=
  mkWorld (fs w) (session w) p (progress_bar w) (status_container w) (calls w).
Definition set_progress_bar (v : option Q) (w : world) : world :=
  mkWorld (fs w) (session w) (page w) v (status_container w) (calls w).
Definition set_status_container (v : option element) (w : world) : world :=
  mkWorld (fs w) (session w) (page w) (progress_bar w) v (calls w).
Definition set_calls (c : list call) (w : world) : world :=
  mkWorld (fs w) (session w) (page w) (progress_bar w) (status_container w) c.

Definition set_uploaded_files (v : list UploadedFile) (s : session_state) : session_state :=
  mkSession v (converted_files s) (combined_markdown s) (conversion_status s)
    (show_welcome s) (dark_mode s) (conversion_started s) (needs_reset s).
Definition set_converted_files (v : list converted_file) (s : session_state) : session_state :=
  mkSession (uploaded_files s) v (combined_markdown s) (conversion_status s)
    (show_welcome s) (dark_mode s) (conversion_started s) (needs_reset s).
Definition set_combined_markdown (v : string) (s : session_state) : session_state :=
  mkSession (uploaded_files s) (converted_files s) v (conversion_status s)
    (show_welcome s) (dark_mode s) (conversion_started s) (needs_reset s).
Definition set_dark_mode (v : bool) (s : session_state) : session_state :=
  mkSession (uploaded_files s) (converted_files s) (combined_markdown s) (conversion_status s)
    (show_welcome s) v (conversion_started s) (needs_reset s).
Definition set_conversion_started (v : bool) (s : session_state) : session_state :=
  mkSession (uploaded_files s) (converted_files s) (combined_markdown s) (conversion_status s)
    (show_welcome s) (dark_mode s) v (needs_reset s).

(** ** The monad: state, and exceptions that keep the state reached *)

Definition M (A : Type) : Type := world -> result A * world.

Definition ret {A} (a : A) : M A := fun w => (Ok a, w).

Definition bind {A B} (m : M A) (k : A -> M B) : M B :=
  fun w => match m w with
           | (Ok a, w') => k a w'
           | (Raise e, w') => (Raise e, w')
           end.

Definition raise {A} (e : exn) : M A := fun w => (Raise e, w).

(** [try: m  except Exception as e: h e] *)
Definition try_except {A} (m : M A) (h : exn -> M A) : M A :=
  fun w => match m w with
           | (Ok a, w') => (Ok a, w')
           | (Raise e, w') => h e w'
           end.

Definition gets {A} (f : world -> A) : M A := fun w => (Ok (f w), w).

Definition modify (f : world -> world) : M unit := fun w => (Ok tt, f w).

Declare Scope py_scope.
Delimit Scope py_scope with py.
Notation "x <- m ;; k" := (bind m (fun x => k))
  (at level 100, m at next level, k at level 200, right associativity) : py_scope.
Notation "m ;; k" := (bind m (fun _ => k))
  (at level 100, k at level 200, right associativity) : py_scope.
Local Open Scope py_scope.

(** [for x in l: body x] *)
Fixpoint for_each {A} (l : list A) (body : A -> M unit) : M unit :=
  match l with
  | [] => ret tt
  | x :: l' => body x ;; for_each l' body
  end.

(** [for idx, x in enumerate(l): acc = body acc idx x], with the loop's
    local variables threaded as [acc]; [idx] counts from [start]. *)
Fixpoint for_enumerate {A L} (start : nat) (l : list A) (body : L -> nat -> A -> M L)
    (acc : L) : M L :=
  match l with
  | [] => ret acc
  | x :: l' => acc' <- body acc start x ;; for_enumerate (S start) l' body acc'
  end.

(** ** Streamlit calls *)

Definition emit (e : element) : M unit :=
  modify (fun w => set_page (page w ++ [e]) w).

Definition st_set_page_config (layout page_title : string) : M unit :=
  emit (Page_config layout page_title).
Definition st_title (body : string) : M unit := emit (Title body).
Definition st_subheader (body : string) : M unit := emit (Subheader body).
Definition st_markdown (body : string) : M unit := emit (Markdown body).
Definition st_divider : M unit := emit Divider.
Definition st_success (body : string) : M unit := emit (Success body).
Definition st_info (body : string) : M unit := emit (Info body).
Definition st_warning (body : string) : M unit := emit (Warning body).
Definition st_error (body : string) : M unit := emit (Error body).
Definition st_expander (label : string) : M unit := emit (Expander label).
Definition st_columns (n : nat) : M unit := emit (Columns n).
Definition st_image (path : string) : M unit := emit (Image path).

(** The keys given to widgets so far in this run. *)
Definition widget_key (e : element) : option string :=
  match e with
  | Download_button _ _ _ _ key => Some key
  | _ => None
  end.

Definition widget_keys (p : list element) : list string := omap widget_key p.

(** [st.download_button(label, data, file_name=, mime=, key=)].  Streamlit
    refuses a key that another widget of the same run already has. *)
Definition st_download_button (label data file_name mime key : string) : M unit :=
  keys <- gets (fun w => widget_keys (page w)) ;;
  if bool_decide (key ∈ keys)
  then raise (mkExn "DuplicateWidgetID" key)
  else emit (Download_button label data file_name mime key).

(** [progress_bar = st.progress(value)] and the methods of the handle. *)
Definition st_progress (value : Q) : M unit :=
  emit Progress_placeholder ;; modify (set_progress_bar (Some value)).
Definition progress_bar_progress (value : Q) : M unit :=
  modify (set_progress_bar (Some value)).
Definition progress_bar_empty : M unit := modify (set_progress_bar None).

(** [status_container = st.empty()] and the methods of the handle. *)
Definition st_empty : M unit :=
  emit Empty_placeholder ;; modify (set_status_container None).
Definition status_container_info (body : string) : M unit :=
  modify (set_status_container (Some (Info body))).
Definition status_container_empty : M unit := modify (set_status_container None).

(** [datetime.now()], by its fields. *)
Record datetime := mkDatetime {
  year : nat; month : nat; day : nat; hour : nat; minute : nat; second : nat
}.

(** [dt.strftime('%Y%m%d_%H%M%S')] (years from 1000 on). *)
Definition strftime (dt : datetime) : string :=
  Py.zfill 4 (year dt) +:+ Py.zfill 2 (month dt) +:+ Py.zfill 2 (day dt) +:+ "_"
  +:+ Py.zfill 2 (hour dt) +:+ Py.zfill 2 (minute dt) +:+ Py.zfill 2 (second dt).

(** What the widgets return when the script runs, as the user has left
    them, and the clock. *)
Record inputs := mkInputs {
  in_dark_mode : bool;
  in_api_key : string;
  in_files : list UploadedFile;
  in_convert : bool;
  in_now : datetime
}.

(** ** The script *)

Section App.

(** [mimetypes.guess_type]. *)
Variable guess_type : string -> option string * option string.

(** The operating system's verdict on [open(path, 'w')] or
    [open(path, 'wb')] followed by the write: [None] when it goes through,
    the [OSError] otherwise (missing parent, a directory in the way,
    permissions, an invalid name).  A write that fails is taken to leave the
    file as it was; the theorems on the specification state nothing about
    the path of a write that failed. *)
Variable os_open : filesystem -> string -> option exn.

(** [MarkItDown(...).convert(path).text_content]: the conversion library
    reads the file at [path] and returns the markdown text or raises. *)
Variable markitdown : option llm -> filesystem -> string -> result string.

(** [os.makedirs(dir_name, exist_ok=True)] for a single path component. *)
Definition os_makedirs (dir_name : string) : M unit :=
  disk <- gets fs ;;
  if bool_decide (dir_name ∈ fs_dirs disk) then ret tt
  else if bool_decide (is_Some (fs_files disk !! dir_name))
  then raise (mkExn "FileExistsError" dir_name)
  else modify (set_fs (mkFs ({[dir_name]} ∪ fs_dirs disk) (fs_files disk))).

(** [with open(path, mode) as f: f.write(data)] *)
Definition open_write (path data : string) : M unit :=
  disk <- gets fs ;;
  match os_open disk path with
  | Some e => raise e
  | None => modify (set_fs (mkFs (fs_dirs disk) (<[path := data]> (fs_files disk))))
  end.

Definition log_call (c : call) : M unit :=
  modify (fun w => set_calls (calls w ++ [c]) w).

(** [OpenAI(api_key=...)] *)
Definition OpenAI_new (api_key : string) : M OpenAI :=
  log_call (OpenAI_init api_key) ;; ret (mkOpenAI api_key).

(** [MarkItDown(...)]; the converter object is identified with its
    configuration. *)
Definition MarkItDown (cfg : option llm) : M (option llm) :=
  log_call (MarkItDown_init cfg) ;; ret cfg.

(** [md.convert(path).text_content] *)
Definition md_convert (md : option llm) (path : string) : M string :=
  log_call (MarkItDown_convert md path) ;;
  disk <- gets fs ;;
  match markitdown md disk path with
  | Ok text_content => ret text_content
  | Raise e => raise e
  end.

Definition setup_directories : M (pathlib.Path * pathlib.Path) :=
  let directories := ["documents"; "converted"] in
  for_each directories (fun dir_name => os_makedirs dir_name) ;;
  ret (pathlib.parse "documents", pathlib.parse "converted").

Definition is_image_file (filename : string) : py_value :=
  let '(mimetype, _) := guess_type filename in
  match mimetype with
  | None => PyNone
  | Some m =>
      if String.eqb m EmptyString then PyStr m
      else PyBool (Py.startswith m "image/")
  end.

Definition get_file_icon (filename : string) : string :=
  if truthy (is_image_file filename) then "🖼️"
  else if Py.endswith filename ".pdf" then "📄"
  else if Py.endswith_any filename [".doc"; ".docx"] then "📝"
  else if Py.endswith_any filename [".xls"; ".xlsx"] then "📊"
  else if Py.endswith filename ".txt" then "📋"
  else "📎".

Definition save_uploaded_file (uploaded_file : UploadedFile) (save_dir : pathlib.Path)
    : M (option pathlib.Path) :=
  try_except
    (let file_path := save_dir // name uploaded_file in
     open_write (pathlib.str file_path) (getbuffer uploaded_file) ;;
     ret (Some file_path))
    (fun e =>
       st_error ("Error saving file: " +:+ exn_msg e) ;;
       ret None).

(** The result is [Some (output_path, content)] for the returned pair and
    [None] for [(None, None)]. *)
Definition convert_to_markdown (file_path output_dir : pathlib.Path)
    (openai_client : option OpenAI) : M (option (pathlib.Path * string)) :=
  try_except
    (md <- match truthy (is_image_file (pathlib.str file_path)), openai_client with
           | true, Some client => MarkItDown (Some (mkLlm client "gpt-4o"))
           | _, _ => MarkItDown None
           end ;;
     text_content <- md_convert md (pathlib.str file_path) ;;
     let output_path := output_dir // (pathlib.stem file_path +:+ ".md") in
     open_write (pathlib.str output_path) text_content ;;
     ret (Some (output_path, text_content)))
    (fun e =>
       st_error ("Error converting file: " +:+ exn_msg e) ;;
       ret None).

(** The session of a first run has no keys; afterwards it has them all. *)
Definition initialize_session_state (stored : option session_state) : session_state :=
  match stored with
  | Some s => s
  | None => mkSession [] [] EmptyString [] true false false false
  end.

Definition modify_session (f : session_state -> session_state) : M unit :=
  modify (fun w => set_session (f (session w)) w).

Definition dark_css : string :=
"
                <style>
                    .stApp {
                        background-color: #1E1E1E;
                        color: #FFFFFF;
                    }
                </style>
                ".

Definition help_text : string :=
"
            **Supported file types:**
            - 📄 PDF documents
            - 📝 Word documents
            - 📊 Excel spreadsheets
            - 🖼️ Images (requires API key)
            - 📋 Text files
            - 🌐 HTML files
            - 📎 ZIP files
            ".

Definition create_sidebar (inp : inputs) : M string :=
  st_title "🛠️ Configuration" ;;
  (* Theme toggle *)
  current <- gets (fun w => dark_mode (session w)) ;;
  emit (Toggle "🌙 Dark Mode" current) ;;
  modify_session (set_dark_mode (in_dark_mode inp)) ;;
  (if in_dark_mode inp then st_markdown dark_css else ret tt) ;;
  (* API Key input *)
  st_divider ;;
  emit (Text_input "🔑 OpenAI API Key") ;;
  let openai_api_key := in_api_key inp in
  (* File uploader *)
  st_divider ;;
  st_subheader "📁 Upload Files" ;;
  emit (File_uploader "Choose files to convert") ;;
  let uploaded_files := in_files inp in
  (match uploaded_files with
   | [] => ret tt
   | _ :: _ =>
       modify_session (set_uploaded_files uploaded_files) ;;
       st_success ("✅ " +:+ pretty (length uploaded_files) +:+ " files uploaded") ;;
       for_each uploaded_files (fun file =>
         let icon := get_file_icon (name file) in
         st_info (icon +:+ " " +:+ name file))
   end) ;;
  (* Convert button *)
  st_divider ;;
  emit (Button "🚀 Convert Files" (bool_decide (uploaded_files = []))) ;;
  (if in_convert inp then
     modify_session (set_conversion_started true) ;;
     modify_session (set_converted_files []) ;;
     modify_session (set_combined_markdown EmptyString)
   else ret tt) ;;
  (* Help section *)
  st_expander "ℹ️ Help" ;;
  st_markdown help_text ;;
  ret openai_api_key.

Definition welcome_text : string :=
"
        ### 👋 Welcome!
        
        This tool helps you convert various document formats to Markdown.
        Get started by:
        1. Adding your OpenAI API key (for image processing)
        2. Uploading your documents
        3. Clicking the Convert button
        ".

Definition features_text : string :=
"
        ### ✨ Features
        
        - 🔄 Convert multiple files at once
        - 🖼️ AI-powered image descriptions
        - 📥 Download individual or combined files
        - 🎨 Dark mode support
        - 📊 Progress tracking
        ".

Definition show_welcome_screen : M unit :=
  st_title "🎯 Document to Markdown Converter" ;;
  st_columns 2 ;;
  st_markdown welcome_text ;;
  st_markdown features_text.

(** *** main *)

(** [(idx + 1) / len(...)]; Python evaluates the quotient in floating
    point, the model keeps the fraction. *)
Definition progress_fraction (idx total : nat) : Q :=
  Z.of_nat (idx + 1) # Pos.of_nat total.

(** The header appended to [combined_content] before a file's text. *)
Definition header (file_name : string) : string :=
  "
## " +:+ file_name +:+ "
".

(** The body of the [for] loop (lines 206-236); [continue] returns the
    loop's local [combined_content] as it stands. *)
Definition process_file (openai_api_key : string) (openai_client : option OpenAI)
    (docs_dir converted_dir : pathlib.Path) (total : nat)
    (combined_content : list string) (idx : nat) (uploaded_file : UploadedFile)
    : M (list string) :=
  let progress := progress_fraction idx total in
  progress_bar_progress progress ;;
  (* Update status *)
  status_container_info ("Processing: " +:+ name uploaded_file) ;;
  (* Check for image files *)
  if truthy (is_image_file (name uploaded_file)) && String.eqb openai_api_key EmptyString
  then
    st_warning ("⚠️ Skipping " +:+ name uploaded_file +:+ " - OpenAI API Key required") ;;
    ret combined_content
  else
    (* Process file *)
    file_path <- save_uploaded_file uploaded_file docs_dir ;;
    match file_path with
    | None => ret combined_content
    | Some file_path =>
        converted <- convert_to_markdown file_path converted_dir openai_client ;;
        match converted with
        | None => ret combined_content
        | Some (output_path, content) =>
            (* Add to combined content *)
            let combined_content :=
              combined_content ++ [header (name uploaded_file); content] in
            (* Store converted file *)
            modify_session (fun s =>
              set_converted_files
                (converted_files s ++
                   [mkConverted (name uploaded_file) output_path content
                      (is_image_file (name uploaded_file))]) s) ;;
            ret combined_content
        end
    end.

(** Lines 259-278: one expander per converted file. *)
Definition display_converted_file (docs_dir : pathlib.Path) (file_info : converted_file)
    : M unit :=
  st_expander (get_file_icon (cf_name file_info) +:+ " " +:+ cf_name file_info) ;;
  (if truthy (cf_is_image file_info) then
     st_columns 2 ;;
     st_image (pathlib.str (docs_dir // cf_name file_info)) ;;
     st_markdown (cf_content file_info)
   else
     st_markdown (cf_content file_info)) ;;
  st_download_button
    ("📥 Download " +:+ cf_name file_info +:+ ".md")
    (cf_content file_info)
    (cf_name file_info +:+ ".md")
    "text/markdown"
    ("download_" +:+ cf_name file_info).

(** Lines 245-278. *)
Definition show_results (inp : inputs) (docs_dir : pathlib.Path) : M unit :=
  st_success "✅ Conversion Complete!" ;;
  (* Download buttons *)
  st_columns 2 ;;
  combined <- gets (fun w => combined_markdown (session w)) ;;
  st_download_button
    "📥 Download All as Single File"
    combined
    ("combined_markdown_" +:+ strftime (in_now inp) +:+ ".md")
    "text/markdown"
    "download_all" ;;
  (* Display converted files *)
  st_subheader "📑 Converted Files" ;;
  records <- gets (fun w => converted_files (session w)) ;;
  for_each records (display_converted_file docs_dir).

(** Lines 198-243: the conversion loop and the combined buffer. *)
Definition convert_files (openai_api_key : string)
    (docs_dir converted_dir : pathlib.Path) : M unit :=
  openai_client <-
    (if negb (String.eqb openai_api_key EmptyString)
     then client <- OpenAI_new openai_api_key ;; ret (Some client)
     else ret None) ;;
  let combined_content := [] in
  (* Progress bar *)
  st_progress 0 ;;
  st_empty ;;
  files <- gets (fun w => uploaded_files (session w)) ;;
  combined_content <-
    for_enumerate 0 files
      (process_file openai_api_key openai_client docs_dir converted_dir (length files))
      combined_content ;;
  (* Clear progress indicators *)
  progress_bar_empty ;;
  status_container_empty ;;
  (* Save combined markdown *)
  modify_session (set_combined_markdown (Py.join "
" combined_content)).

(** [main()] once [initialize_session_state()] has run. *)
Definition main_script (inp : inputs) : M unit :=
  st_set_page_config "wide" "MarkItDown Converter" ;;
  dirs <- setup_directories ;;
  let '(docs_dir, converted_dir) := dirs in
  (* Create sidebar and get API key *)
  openai_api_key <- create_sidebar inp ;;
  (* Show welcome screen if no conversion started *)
  started <- gets (fun w => conversion_started (session w)) ;;
  if negb started then show_welcome_screen
  else
    (* Main content area *)
    st_title "🔄 Converting Documents" ;;
    (* Process files only when conversion is started and not yet processed *)
    s <- gets session ;;
    if conversion_started s && bool_decide (converted_files s = [])
    then
      convert_files openai_api_key docs_dir converted_dir ;;
      show_results inp docs_dir
    else ret tt.

(** One run of the script: a fresh page over the disk and the session
    state that the previous run left. *)
Definition main (inp : inputs) (disk : filesystem) (stored : option session_state)
    : result unit * world :=
  main_script inp
    (mkWorld disk (initialize_session_state stored) [] None None []).

End App.

(** ** Specification vocabulary *)

(** How one iteration of the loop in [main] ends. *)
Inductive outcome :=
| Skipped
| Save_failed (e : exn)
| Convert_failed (e : exn)
| Write_failed (e : exn)
| Converted (content : string).

Section Outcome.

Variable guess_type : string -> option string * option string.
Variable os_open : filesystem -> string -> option exn.
Variable markitdown : option llm -> filesystem -> string -> result string.

(** The converter configuration that [convert_to_markdown] selects. *)
Definition converter_config (file_path : pathlib.Path) (openai_client : option OpenAI)
    : option llm :=
  match truthy (is_image_file guess_type (pathlib.str file_path)), openai_client with
  | true, Some client => Some (mkLlm client "gpt-4o")
  | _, _ => None
  end.

Definition output_path_of (file_path output_dir : pathlib.Path) : pathlib.Path :=
  output_dir // (pathlib.stem file_path +:+ ".md").

Definition write_file (path data : string) (disk : filesystem) : filesystem :=
  mkFs (fs_dirs disk) (<[path := data]> (fs_files disk)).

Definition skips (openai_api_key : string) (uploaded_file : UploadedFile) : bool :=
  truthy (is_image_file guess_type (name uploaded_file))
  && String.eqb openai_api_key EmptyString.

Definition outcome_of (openai_api_key : string) (openai_client : option OpenAI)
    (docs_dir converted_dir : pathlib.Path) (uploaded_file : UploadedFile)
    (disk : filesystem) : outcome :=
  if skips openai_api_key uploaded_file then Skipped
  else
    let file_path := docs_dir // name uploaded_file in
    match os_open disk (pathlib.str file_path) with
    | Some e => Save_failed e
    | None =>
        let disk1 := write_file (pathlib.str file_path) (getbuffer uploaded_file) disk in
        match markitdown (converter_config file_path openai_client) disk1
                (pathlib.str file_path) with
        | Raise e => Convert_failed e
        | Ok content =>
            match os_open disk1 (pathlib.str (output_path_of file_path converted_dir)) with
            | Some e => Write_failed e
            | None => Converted content
            end
        end
    end.

Definition record_of (converted_dir docs_dir : pathlib.Path) (uploaded_file : UploadedFile)
    (content : string) : converted_file :=
  mkConverted (name uploaded_file)
    (output_path_of (docs_dir // name uploaded_file) converted_dir) content
    (is_image_file guess_type (name uploaded_file)).

(** What an iteration that ends with [o] shows, calls, writes and records. *)
Definition notices (uploaded_file : UploadedFile) (o : outcome) : list element :=
  match o with
  | Skipped =>
      [Warning ("⚠️ Skipping " +:+ name uploaded_file +:+ " - OpenAI API Key required")]
  | Save_failed e => [Error ("Error saving file: " +:+ exn_msg e)]
  | Convert_failed e | Write_failed e => [Error ("Error converting file: " +:+ exn_msg e)]
  | Converted _ => []
  end.

Definition library_calls (docs_dir : pathlib.Path) (openai_client : option OpenAI)
    (uploaded_file : UploadedFile) (o : outcome) : list call :=
  let file_path := docs_dir // name uploaded_file in
  let cfg := converter_config file_path openai_client in
  match o with
  | Skipped | Save_failed _ => []
  | _ => [MarkItDown_init cfg; MarkItDown_convert cfg (pathlib.str file_path)]
  end.

Definition disk_after (docs_dir converted_dir : pathlib.Path) (uploaded_file : UploadedFile)
    (o : outcome) (disk : filesystem) : filesystem :=
  let file_path := docs_dir // name uploaded_file in
  let saved := write_file (pathlib.str file_path) (getbuffer uploaded_file) disk in
  match o with
  | Skipped | Save_failed _ => disk
  | Convert_failed _ | Write_failed _ => saved
  | Converted content =>
      write_file (pathlib.str (output_path_of file_path converted_dir)) content saved
  end.

Definition records_after (docs_dir converted_dir : pathlib.Path) (uploaded_file : UploadedFile)
    (o : outcome) (records : list converted_file) : list converted_file :=
  match o with
  | Converted content => records ++ [record_of converted_dir docs_dir uploaded_file content]
  | _ => records
  end.

Definition content_after (uploaded_file : UploadedFile) (o : outcome)
    (combined_content : list string) : list string :=
  match o with
  | Converted content => combined_content ++ [header (name uploaded_file); content]
  | _ => combined_content
  end.

(** The outcomes of the whole loop: each file meets the disk that the files
    before it have left. *)
Fixpoint outcomes (openai_api_key : string) (openai_client : option OpenAI)
    (docs_dir converted_dir : pathlib.Path) (files : list UploadedFile)
    (disk : filesystem) : list (UploadedFile * outcome) :=
  match files with
  | [] => []
  | f :: files' =>
      let o := outcome_of openai_api_key openai_client docs_dir converted_dir f disk in
      (f, o) :: outcomes openai_api_key openai_client docs_dir converted_dir files'
                  (disk_after docs_dir converted_dir f o disk)
  end.

Definition disk_after_all (docs_dir converted_dir : pathlib.Path)
    (fos : list (UploadedFile * outcome)) (disk : filesystem) : filesystem :=
  fold_left (fun d fo => disk_after docs_dir converted_dir fo.1 fo.2 d) fos disk.

Definition new_records (docs_dir converted_dir : pathlib.Path)
    (fos : list (UploadedFile * outcome)) : list converted_file :=
  flat_map (fun fo => records_after docs_dir converted_dir fo.1 fo.2 []) fos.

Definition new_notices (fos : list (UploadedFile * outcome)) : list element :=
  flat_map (fun fo => notices fo.1 fo.2) fos.

Definition new_calls (docs_dir : pathlib.Path) (openai_client : option OpenAI)
    (fos : list (UploadedFile * outcome)) : list call :=
  flat_map (fun fo => library_calls docs_dir openai_client fo.1 fo.2) fos.

End Outcome.

(** The client that [main] builds from the credential. *)
Definition client_for (openai_api_key : string) : option OpenAI :=
  if negb (String.eqb openai_api_key EmptyString) then Some (mkOpenAI openai_api_key)
  else None.

Definition client_calls (openai_api_key : string) : list call :=
  if negb (String.eqb openai_api_key EmptyString) then [OpenAI_init openai_api_key] else [].

(** The session state that [create_sidebar] leaves. *)
Definition sidebar_session (inp : inputs) (s : session_state) : session_state :=
  let s := set_dark_mode (in_dark_mode inp) s in
  let s := match in_files inp with
           | [] => s
           | _ :: _ => set_uploaded_files (in_files inp) s
           end in
  if in_convert inp
  then set_combined_markdown EmptyString
         (set_converted_files [] (set_conversion_started true s))
  else s.

(** The disk that [setup_directories] leaves when it succeeds. *)
Definition with_directories (disk : filesystem) : filesystem :=
  mkFs ({["converted"]} ∪ ({["documents"]} ∪ fs_dirs disk)) (fs_files disk).

(** [c] does not occur in [s]. *)
Fixpoint free_of (c : ascii) (s : string) : bool :=
  match s with
  | EmptyString => true
  | String a s' => negb (Ascii.eqb a c) && free_of c s'
  end.

(** A path whose components hold no separator, as [pathlib] builds them. *)
Definition well_formed (p : pathlib.Path) : Prop :=
  Forall (fun x => free_of "/"%char x = true) (pathlib.parts p).

(** What [create_sidebar] renders; [current] is the stored theme. *)
Definition sidebar_elements (guess_type : string -> option string * option string)
    (inp : inputs) (current : bool) : list element :=
  [Title "🛠️ Configuration"; Toggle "🌙 Dark Mode" current]
  ++ (if in_dark_mode inp then [Markdown dark_css] else [])
  ++ [Divider; Text_input "🔑 OpenAI API Key"; Divider; Subheader "📁 Upload Files";
      File_uploader "Choose files to convert"]
  ++ match in_files inp with
     | [] => []
     | _ :: _ =>
         Success ("✅ " +:+ pretty (length (in_files inp)) +:+ " files uploaded")
         :: map (fun file =>
                   Info (get_file_icon guess_type (name file) +:+ " " +:+ name file))
              (in_files inp)
     end
  ++ [Divider; Button "🚀 Convert Files" (bool_decide (in_files inp = []));
      Expander "ℹ️ Help"; Markdown help_text].

(** What a run may ask of the AI client and of the conversion library when
    the credential is [key]: the client is built from a non-empty [key], no
    request goes through it directly, and a converter that carries a client
    carries that one, with the model gpt-4o. *)
Definition call_ok (key : string) (c : call) : Prop :=
  match c with
  | OpenAI_init k => k = key /\ key <> EmptyString
  | OpenAI_request _ => False
  | MarkItDown_init cfg | MarkItDown_convert cfg _ =>
      forall l, cfg = Some l -> l = mkLlm (mkOpenAI key) "gpt-4o" /\ key <> EmptyString
  end.

(** The download buttons that [show_results] asks for. *)
Definition combined_download (inp : inputs) (s : session_state) : element :=
  Download_button "📥 Download All as Single File" (combined_markdown s)
    ("combined_markdown_" +:+ strftime (in_now inp) +:+ ".md") "text/markdown"
    "download_all".


(** A computation that only adds elements to the page. *)
Definition page_only {A} (m : M A) : Prop :=
  forall w, exists extra, (m w).2 = set_page (page w ++ extra) w.

(** The header-and-text blocks of a list of records, as they are appended to
    [combined_content]. *)
Definition blocks (records : list converted_file) : list string :=
  flat_map (fun r => [header (cf_name r); cf_content r]) records.


Definition skip_warning (file_name : string) : element :=
  Warning ("⚠️ Skipping " +:+ file_name +:+ " - OpenAI API Key required").

Definition is_warning (e : element) : bool :=
  match e with Warning _ => true | _ => false end.

Definition is_download (e : element) : bool :=
  match e with Download_button _ _ _ _ _ => true | _ => false end.

(** The session states that the script reaches: the one its first run
    leaves, and the one each later run leaves from the one before, whatever
    the user entered and whatever is on the disk. *)
Inductive reachable (guess_type : string -> option string * option string)
    (os_open : filesystem -> string -> option exn)
    (markitdown : option llm -> filesystem -> string -> result string)
    : session_state -> Prop :=
| reach_first inp disk :
    reachable guess_type os_open markitdown
      (session (main guess_type os_open markitdown inp disk None).2)
| reach_next inp disk s :
    reachable guess_type os_open markitdown s ->
    reachable guess_type os_open markitdown
      (session (main guess_type os_open markitdown inp disk (Some s)).2).

(** A concrete environment, used to exercise the statements below: a small
    type table, a disk that accepts every write, and a converter that
    prefixes what it reads and fails on the file broken.txt. *)
Module Demo.

Definition types_map (ext : string) : option string :=
  Py.lookup
    [ (".png", "image/png"); (".jpg", "image/jpeg"); (".txt", "text/plain");
      (".pdf", "application/pdf"); (".tar", "application/x-tar") ] ext.

Definition guess_type : string -> option string * option string :=
  mimetypes.guess_type types_map.

Definition os_open (_ : filesystem) (_ : string) : option exn := None.

Definition markitdown (_ : option llm) (disk : filesystem) (path : string)
    : result string :=
  if Py.endswith path "broken.txt" then Raise (mkExn "ValueError" "cannot convert")
  else Ok ("md:" +:+ default EmptyString (fs_files disk !! path)).

Definition disk0 : filesystem := mkFs ∅ ∅.

Definition notes := mkUploadedFile "notes.txt" "hello".
Definition photo := mkUploadedFile "photo.png" "pixels".
Definition broken := mkUploadedFile "broken.txt" "bad".
Definition all_file := mkUploadedFile "all" "everything".

Definition now : datetime := mkDatetime 2024 12 25 9 5 7.

Definition docs_dir : pathlib.Path := pathlib.parse "documents".
Definition converted_dir : pathlib.Path := pathlib.parse "converted".

(** The state in which the loop of [main] starts on [files]. *)
Definition ready (files : list UploadedFile) : world :=
  mkWorld disk0
    (set_conversion_started true (set_uploaded_files files (initialize_session_state None)))
    [] None None [].

Definition convert_files (openai_api_key : string) (w : world) : result unit * world :=
  convert_files guess_type os_open markitdown openai_api_key docs_dir converted_dir w.

Definition process_file (openai_api_key : string) (idx : nat) (f : UploadedFile) (w : world)
    : result (list string) * world :=
  process_file guess_type os_open markitdown openai_api_key (client_for openai_api_key)
    docs_dir converted_dir 3 [] idx f w.

Definition run (openai_api_key : string) (files : list UploadedFile) (convert : bool)
    (disk : filesystem) (stored : option session_state) : result unit * world :=
  main guess_type os_open markitdown
    (mkInputs false openai_api_key files convert now) disk stored.

End Demo.

(** ** Further vocabulary *)

Definition is_error (e : element) : bool :=
  match e with Error _ => true | _ => false end.

(** The notices of the loop: a warning for a skipped file, an error for a
    failed one. *)
Definition is_notice (e : element) : bool := is_warning e || is_error e.

(** What [show_welcome_screen] renders. *)
Definition welcome_elements : list element :=
  [Title "🎯 Document to Markdown Converter"; Columns 2;
   Markdown welcome_text; Markdown features_text].



Definition is_info (e : element) : bool :=
  match e with Info _ => true | _ => false end.

Definition is_markdown (e : element) : bool :=
  match e with Markdown _ => true | _ => false end.

(** What [show_results] renders before the display loop. *)
Definition results_header (inp : inputs) (s : session_state) : list element :=
  [Success "✅ Conversion Complete!"; Columns 2; combined_download inp s;
   Subheader "📑 Converted Files"].

(** A file name that is a single path component: no separator in it, not
    empty and not the current directory. *)
Definition plain_name (n : string) : Prop :=
  free_of "/"%char n = true /\ n <> EmptyString /\ n <> ".".

(** One use of the conversion library: the converter's configuration and the
    path it is called on. *)
Definition attempt_calls (a : option llm * string) : list call :=
  [MarkItDown_init a.1; MarkItDown_convert a.1 a.2].

(** The paths that a run over [files] may write: each upload's saved copy
    and its markdown output. *)
Definition footprint (docs_dir converted_dir : pathlib.Path) (files : list UploadedFile)
    (p : string) : Prop :=
  exists f, f ∈ files
    /\ (p = pathlib.str (docs_dir // name f)
        \/ p = pathlib.str (output_path_of (docs_dir // name f) converted_dir)).


(** An environment with failures: an operating system that refuses to write
    below a given prefix, two disks on which a regular file stands where one
    of the two directories should be, and an upload to be refused. *)
Module Faulty.

Definition refuse (prefix : string) (_ : filesystem) (path : string) : option exn :=
  if Py.startswith path prefix
  then Some (mkExn "PermissionError" ("[Errno 13] Permission denied: '" +:+ path +:+ "'"))
  else None.

Definition blocked : filesystem := mkFs ∅ {["documents" := "not a directory"]}.

Definition half_blocked : filesystem := mkFs ∅ {["converted" := "not a directory"]}.


End Faulty.

(** * Lemmas *)

(** ** The monad and the loops *)

Lemma bind_ok {A B} (m : M A) (k : A -> M B) w a w' :
  m w = (Ok a, w') -> bind m k w = k a w'.
Proof. intros H. unfold bind. now rewrite H. Qed.

Lemma bind_raise {A B} (m : M A) (k : A -> M B) w e w' :
  m w = (Raise e, w') -> bind m k w = (Raise e, w').
Proof. intros H. unfold bind. now rewrite H. Qed.


Section AppFacts.

Variable guess_type : string -> option string * option string.
Variable os_open : filesystem -> string -> option exn.
Variable markitdown : option llm -> filesystem -> string -> result string.

Abbreviation is_image_file := (is_image_file guess_type).
Abbreviation convert_to_markdown := (convert_to_markdown guess_type os_open markitdown).
Abbreviation save_uploaded_file := (save_uploaded_file os_open).
Abbreviation process_file := (process_file guess_type os_open markitdown).
Abbreviation convert_files := (convert_files guess_type os_open markitdown).
Abbreviation converter_config := (converter_config guess_type).
Abbreviation outcome_of := (outcome_of guess_type os_open markitdown).
Abbreviation record_of := (record_of guess_type).
Abbreviation skips := (skips guess_type).
Abbreviation records_after := (records_after guess_type).
Abbreviation library_calls := (library_calls guess_type).
Abbreviation outcomes := (outcomes guess_type os_open markitdown).
Abbreviation new_records := (new_records guess_type).
Abbreviation new_calls := (new_calls guess_type).

(** *** save_uploaded_file and convert_to_markdown, step by step *)

Lemma save_uploaded_file_eq uploaded_file save_dir w :
  let file_path := save_dir // name uploaded_file in
  save_uploaded_file uploaded_file save_dir w =
  match os_open (fs w) (pathlib.str file_path) with
  | Some e => (Ok None, set_page (page w ++ [Error ("Error saving file: " +:+ exn_msg e)]) w)
  | None =>
      (Ok (Some file_path),
       set_fs (write_file (pathlib.str file_path) (getbuffer uploaded_file) (fs w)) w)
  end.
Proof.
  unfold save_uploaded_file, try_except, open_write, bind, gets, raise, modify, ret,
    st_error, emit. simpl.
  destruct (os_open (fs w) _); reflexivity.
Qed.

Lemma convert_to_markdown_eq file_path output_dir openai_client w :
  let cfg := converter_config file_path openai_client in
  let path := pathlib.str file_path in
  let output_path := output_path_of file_path output_dir in
  let w1 := set_calls (calls w ++ [MarkItDown_init cfg; MarkItDown_convert cfg path]) w in
  let failed e :=
    (Ok None, set_page (page w ++ [Error ("Error converting file: " +:+ exn_msg e)]) w1) in
  convert_to_markdown file_path output_dir openai_client w =
  match markitdown cfg (fs w) path with
  | Raise e => failed e
  | Ok text_content =>
      match os_open (fs w) (pathlib.str output_path) with
      | Some e => failed e
      | None =>
          (Ok (Some (output_path, text_content)),
           set_fs (write_file (pathlib.str output_path) text_content (fs w)) w1)
      end
  end.
Proof.
  unfold convert_to_markdown, converter_config, output_path_of.
  unfold try_except, MarkItDown, md_convert, open_write, log_call, bind, gets, raise,
    modify, ret, st_error, emit. simpl.
  destruct (truthy _), openai_client; simpl;
    rewrite <- ?app_assoc; simpl;
    (destruct (markitdown _ (fs w) _); simpl; [destruct (os_open (fs w) _)|]; reflexivity).
Qed.

(** *** One iteration of the loop, in full *)

Lemma process_file_spec openai_api_key openai_client docs_dir converted_dir total
    combined_content idx uploaded_file w :
  let o := outcome_of openai_api_key openai_client docs_dir converted_dir uploaded_file (fs w) in
  exists w',
    process_file openai_api_key openai_client docs_dir converted_dir total
      combined_content idx uploaded_file w
    = (Ok (content_after uploaded_file o combined_content), w')
    /\ progress_bar w' = Some (progress_fraction idx total)
    /\ status_container w' = Some (Info ("Processing: " +:+ name uploaded_file))
    /\ session w' =
       set_converted_files
         (records_after docs_dir converted_dir uploaded_file o (converted_files (session w)))
         (session w)
    /\ page w' = page w ++ notices uploaded_file o
    /\ calls w' = calls w ++ library_calls docs_dir openai_client uploaded_file o
    /\ fs w' = disk_after docs_dir converted_dir uploaded_file o (fs w).
Proof.
  intros o. subst o. unfold outcome_of, skips, process_file.
  unfold bind at 1. unfold progress_bar_progress, modify at 1.
  unfold bind at 1. unfold status_container_info, modify at 1.
  set (w0 := set_status_container _ (set_progress_bar _ w)).
  assert (Hsess : forall s, set_converted_files (converted_files s) s = s) by (now intros []).
  destruct (truthy (is_image_file (name uploaded_file)) && String.eqb openai_api_key EmptyString).
  { eexists. split; [reflexivity|]. simpl. rewrite Hsess, !app_nil_r. done. }
  unfold bind at 1. rewrite save_uploaded_file_eq. simpl fs.
  destruct (os_open (fs w) _) as [e|].
  { eexists. split; [reflexivity|]. simpl. rewrite Hsess, !app_nil_r. done. }
  unfold bind at 1. rewrite convert_to_markdown_eq. cbn [fs set_fs].
  destruct (markitdown _ _ _) as [content|e].
  2:{ eexists. split; [reflexivity|]. simpl. rewrite Hsess. done. }
  destruct (os_open _ (pathlib.str (output_path_of _ _))) as [e|].
  { eexists. split; [reflexivity|]. simpl. rewrite Hsess. done. }
  eexists. split; [reflexivity|]. simpl. rewrite !app_nil_r. done.
Qed.

(** *** The loop as a fold over outcomes *)

Lemma blocks_app r1 r2 : blocks (r1 ++ r2) = blocks r1 ++ blocks r2.
Proof. unfold blocks. now rewrite flat_map_app. Qed.

Lemma content_after_blocks docs_dir converted_dir f o cc :
  content_after f o cc = cc ++ blocks (records_after docs_dir converted_dir f o []).
Proof. destruct o; simpl; now rewrite ?app_nil_r. Qed.

Lemma records_after_app docs_dir converted_dir f o records :
  records_after docs_dir converted_dir f o records
  = records ++ records_after docs_dir converted_dir f o [].
Proof. destruct o; simpl; now rewrite ?app_nil_r. Qed.

Lemma loop_spec openai_api_key openai_client docs_dir converted_dir total files :
  forall start combined_content w,
    let fos := outcomes openai_api_key openai_client docs_dir converted_dir files (fs w) in
    exists w',
      for_enumerate start files
        (process_file openai_api_key openai_client docs_dir converted_dir total)
        combined_content w
      = (Ok (combined_content ++ blocks (new_records docs_dir converted_dir fos)), w')
      /\ session w' =
         set_converted_files
           (converted_files (session w) ++ new_records docs_dir converted_dir fos) (session w)
      /\ page w' = page w ++ new_notices fos
      /\ calls w' = calls w ++ new_calls docs_dir openai_client fos
      /\ fs w' = disk_after_all docs_dir converted_dir fos (fs w).
Proof.
  induction files as [|f files IH]; intros start cc w; simpl.
  - exists w. unfold ret. rewrite !app_nil_r. repeat split; try done. now destruct (session w).
  - destruct (process_file_spec openai_api_key openai_client docs_dir converted_dir total
                cc start f w) as (w1 & Hrun & _ & _ & Hsess & Hpage & Hcalls & Hfs).
    set (o := outcome_of _ _ _ _ f (fs w)) in *.
    destruct (IH (S start) (content_after f o cc) w1) as (w2 & Hloop & Hsess2 & Hpage2 & Hcalls2 & Hfs2).
    rewrite Hfs in Hloop, Hsess2, Hpage2, Hcalls2, Hfs2.
    exists w2. erewrite bind_ok by exact Hrun. rewrite Hloop.
    unfold new_records, new_notices, new_calls, disk_after_all in *. simpl.
    rewrite !blocks_app, Hsess2, Hpage2, Hcalls2, Hfs2, Hsess, Hpage, Hcalls.
    rewrite (content_after_blocks docs_dir converted_dir), (records_after_app _ _ f o (converted_files _)).
    simpl. rewrite <- !app_assoc. done.
Qed.

(** *** convert_files *)

Lemma convert_files_spec openai_api_key docs_dir converted_dir w :
  let client := client_for openai_api_key in
  let fos := outcomes openai_api_key client docs_dir converted_dir
               (uploaded_files (session w)) (fs w) in
  let new := new_records docs_dir converted_dir fos in
  exists w',
    convert_files openai_api_key docs_dir converted_dir w = (Ok tt, w')
    /\ session w' =
       set_combined_markdown (Py.join "
" (blocks new))
         (set_converted_files (converted_files (session w) ++ new) (session w))
    /\ page w' = page w ++ [Progress_placeholder; Empty_placeholder] ++ new_notices fos
    /\ calls w' = calls w ++ client_calls openai_api_key ++ new_calls docs_dir client fos
    /\ fs w' = disk_after_all docs_dir converted_dir fos (fs w)
    /\ progress_bar w' = None
    /\ status_container w' = None.
Proof.
  intros client fos new. subst client fos new.
  unfold convert_files, client_for, client_calls, OpenAI_new, log_call, st_progress,
    st_empty, emit, progress_bar_empty, status_container_empty, modify_session.
  destruct (negb (String.eqb openai_api_key EmptyString));
    unfold bind, gets, modify, ret; simpl;
    match goal with
    | |- context [for_enumerate 0 ?l (process_file ?k ?c ?d ?cv ?t) ?cc ?v] =>
        destruct (loop_spec k c d cv t l 0 cc v) as (w1 & Hloop & Hsess & Hpage & Hcalls & Hfs1)
    end;
    simpl in *; rewrite Hloop; eexists; (split; [reflexivity|]); simpl;
    rewrite Hsess, Hpage, Hcalls, Hfs1, <- ?app_assoc; done.
Qed.

End AppFacts.

(** *** Computations that only render *)

Lemma page_only_ret {A} (a : A) : page_only (ret a).
Proof. intros w. exists []. simpl. rewrite app_nil_r. now destruct w. Qed.

Lemma page_only_raise {A} e : page_only (@raise A e).
Proof. intros w. exists []. simpl. rewrite app_nil_r. now destruct w. Qed.

Lemma page_only_gets {A} (f : world -> A) : page_only (gets f).
Proof. intros w. exists []. simpl. rewrite app_nil_r. now destruct w. Qed.

Lemma page_only_emit e : page_only (emit e).
Proof. intros w. now exists [e]. Qed.

Lemma page_only_bind {A B} (m : M A) (k : A -> M B) :
  page_only m -> (forall a, page_only (k a)) -> page_only (bind m k).
Proof.
  intros Hm Hk w. unfold bind. destruct (Hm w) as [e1 H1].
  destruct (m w) as [[a|e] w1]; simpl in H1; subst w1.
  - destruct (Hk a (set_page (page w ++ e1) w)) as [e2 H2].
    exists (e1 ++ e2). rewrite H2. simpl. now rewrite app_assoc.
  - now exists e1.
Qed.

Lemma page_only_for_each {A} (l : list A) (body : A -> M unit) :
  (forall x, page_only (body x)) -> page_only (for_each l body).
Proof.
  intros Hb. induction l as [|x l IH]; simpl.
  - apply page_only_ret.
  - apply page_only_bind; auto.
Qed.

Lemma page_only_download label data file_name mime key :
  page_only (st_download_button label data file_name mime key).
Proof.
  unfold st_download_button. apply page_only_bind; [apply page_only_gets|].
  intros keys. destruct (bool_decide _); [apply page_only_raise|apply page_only_emit].
Qed.

Lemma page_only_show_welcome_screen : page_only show_welcome_screen.
Proof. repeat (apply page_only_bind; [apply page_only_emit|intros _]). apply page_only_emit. Qed.

Lemma for_each_emit {A} (g : A -> element) (l : list A) w :
  for_each l (fun x => emit (g x)) w = (Ok tt, set_page (page w ++ map g l) w).
Proof.
  revert w. induction l as [|x l IH]; intros w; simpl.
  - unfold ret. rewrite app_nil_r. now destruct w.
  - unfold bind, emit at 1, modify. rewrite IH. simpl. now rewrite <- app_assoc.
Qed.

(** *** setup_directories *)

Lemma setup_directories_spec w :
  exists r disk,
    setup_directories w = (r, set_fs disk w)
    /\ fs_files disk = fs_files (fs w)
    /\ match r with
       | Ok dirs =>
           dirs = (pathlib.parse "documents", pathlib.parse "converted")
           /\ fs_dirs disk = {["converted"]} ∪ ({["documents"]} ∪ fs_dirs (fs w))
           /\ ("documents" ∈ fs_dirs (fs w) \/ fs_files (fs w) !! "documents" = None)
           /\ ("converted" ∈ fs_dirs (fs w) \/ fs_files (fs w) !! "converted" = None)
       | Raise e =>
           exn_class e = "FileExistsError"
           /\ ((("documents" ∉ fs_dirs (fs w)) /\ is_Some (fs_files (fs w) !! "documents"))
               \/ (("converted" ∉ fs_dirs (fs w))
                   /\ is_Some (fs_files (fs w) !! "converted")))
       end.
Proof.
  destruct w as [[dirs files] s p pb sc c].
  unfold setup_directories, for_each, os_makedirs, bind, gets, modify, ret, raise. simpl.
  destruct (bool_decide_reflect ("documents" ∈ dirs)) as [Hd|Hd]; simpl.
  - destruct (bool_decide_reflect ("converted" ∈ dirs)) as [Hc|Hc]; simpl.
    + exists (Ok (pathlib.parse "documents", pathlib.parse "converted")), (mkFs dirs files).
      repeat split; auto. simpl. apply leibniz_equiv. set_solver.
    + destruct (bool_decide_reflect (is_Some (files !! "converted"))) as [Hf|Hf]; simpl.
      * eexists (Raise _), (mkFs dirs files). repeat split; auto.
      * eexists (Ok _), (mkFs _ files). split; [reflexivity|]. repeat split; auto.
        { simpl. apply leibniz_equiv. set_solver. }
        right. now apply eq_None_not_Some.
  - destruct (bool_decide_reflect (is_Some (files !! "documents"))) as [Hf|Hf]; simpl.
    { eexists (Raise _), (mkFs dirs files). repeat split; auto. }
    apply eq_None_not_Some in Hf.
    destruct (bool_decide_reflect ("converted" ∈ {["documents"]} ∪ dirs)) as [Hc|Hc]; simpl.
    + eexists (Ok _), (mkFs _ files). split; [reflexivity|]. repeat split; auto.
      { simpl. apply leibniz_equiv. set_solver. }
      left. set_solver.
    + destruct (bool_decide_reflect (is_Some (files !! "converted"))) as [Hf2|Hf2]; simpl.
      * eexists (Raise _), (mkFs _ files). repeat split; auto.
        right. split; [set_solver|exact Hf2].
      * eexists (Ok _), (mkFs _ files). split; [reflexivity|]. repeat split; auto.
        right. now apply eq_None_not_Some.
Qed.

(** On a disk where no regular file is in the way, [setup_directories]
    adds the two directories and nothing else changes. *)
Lemma setup_directories_ok w :
  ("documents" ∈ fs_dirs (fs w) \/ fs_files (fs w) !! "documents" = None) ->
  ("converted" ∈ fs_dirs (fs w) \/ fs_files (fs w) !! "converted" = None) ->
  setup_directories w
  = (Ok (pathlib.parse "documents", pathlib.parse "converted"),
     set_fs (with_directories (fs w)) w).
Proof.
  intros Hdocs Hconv.
  destruct (setup_directories_spec w) as (r & disk & -> & Hfiles & Hr).
  destruct r as [dirs|e].
  - destruct Hr as (-> & Hdirs & _). do 2 f_equal.
    destruct disk as [d f]. simpl in *. subst. reflexivity.
  - destruct Hr as (_ & [[Hn [x Hx]]|[Hn [x Hx]]]).
    + destruct Hdocs; [contradiction|congruence].
    + destruct Hconv; [contradiction|congruence].
Qed.

Section AppRun.

Variable guess_type : string -> option string * option string.
Variable os_open : filesystem -> string -> option exn.
Variable markitdown : option llm -> filesystem -> string -> result string.

Abbreviation get_file_icon := (get_file_icon guess_type).
Abbreviation create_sidebar := (create_sidebar guess_type).
Abbreviation show_results := (show_results guess_type).
Abbreviation display_converted_file := (display_converted_file guess_type).
Abbreviation convert_files := (convert_files guess_type os_open markitdown).
Abbreviation main_script := (main_script guess_type os_open markitdown).
Abbreviation main := (main guess_type os_open markitdown).

Lemma page_only_display_converted_file docs_dir file_info :
  page_only (display_converted_file docs_dir file_info).
Proof.
  unfold display_converted_file.
  apply page_only_bind; [apply page_only_emit|intros _].
  apply page_only_bind; [|intros _; apply page_only_download].
  destruct (truthy _); repeat (apply page_only_bind; [apply page_only_emit|intros _]);
    apply page_only_emit.
Qed.

Lemma page_only_show_results inp docs_dir : page_only (show_results inp docs_dir).
Proof.
  unfold show_results.
  repeat (apply page_only_bind; [apply page_only_emit|intros _]).
  apply page_only_bind; [apply page_only_gets|intros combined].
  apply page_only_bind; [apply page_only_download|intros _].
  apply page_only_bind; [apply page_only_emit|intros _].
  apply page_only_bind; [apply page_only_gets|intros records].
  apply page_only_for_each. intros r. apply page_only_display_converted_file.
Qed.

(** *** create_sidebar *)

Lemma widget_keys_sidebar_elements inp current :
  widget_keys (sidebar_elements guess_type inp current) = [].
Proof.
  unfold sidebar_elements, widget_keys.
  assert (Hkeys : forall l : list UploadedFile,
            omap widget_key
              (map (fun file => Info (get_file_icon (name file) +:+ " " +:+ name file)) l) = []).
  { induction l as [|x l IH]; [reflexivity|exact IH]. }
  repeat rewrite omap_app.
  destruct (in_dark_mode inp), (in_files inp); cbn -[pretty]; rewrite ?Hkeys; reflexivity.
Qed.

Lemma create_sidebar_spec inp w :
  create_sidebar inp w
  = (Ok (in_api_key inp),
     set_session (sidebar_session inp (session w))
       (set_page (page w ++ sidebar_elements guess_type inp (dark_mode (session w))) w)).
Proof.
  unfold create_sidebar, sidebar_session, sidebar_elements, st_title, st_divider,
    st_subheader, st_markdown, st_success, st_expander, st_info, modify_session.
  set (info := fun file : UploadedFile =>
                 Info (get_file_icon (name file) +:+ " " +:+ name file)).
  set (body := fun file : UploadedFile => _).
  assert (Hbody : forall l v, for_each l body v = (Ok tt, set_page (page v ++ map info l) v))
    by (intros l v; exact (for_each_emit info l v)).
  clearbody body info.
  destruct w as [disk s p pb sc c].
  destruct (in_dark_mode inp), (in_files inp) as [|f files], (in_convert inp);
    unfold bind, gets, emit, modify, ret; cbn -[for_each pretty]; rewrite ?Hbody;
    cbn -[pretty]; rewrite <- ?app_assoc; reflexivity.
Qed.

(** *** main, by cases *)

Lemma main_script_eq inp w :
  match setup_directories
          (set_page (page w ++ [Page_config "wide" "MarkItDown Converter"]) w) with
  | (Raise e, w0) => main_script inp w = (Raise e, w0)
  | (Ok dirs, w0) =>
      let w1 := set_session (sidebar_session inp (session w0))
                  (set_page (page w0 ++ sidebar_elements guess_type inp
                                          (dark_mode (session w0))) w0) in
      let w2 := set_page (page w1 ++ [Title "🔄 Converting Documents"]) w1 in
      main_script inp w =
      if negb (conversion_started (session w1)) then show_welcome_screen w1
      else if bool_decide (converted_files (session w1) = [])
           then (convert_files (in_api_key inp) dirs.1 dirs.2 ;;
                 show_results inp dirs.1)%py w2
           else (Ok tt, w2)
  end.
Proof.
  destruct (setup_directories _) as [[[docs_dir converted_dir]|e] w0] eqn:Hsetup.
  2:{ unfold main_script. erewrite bind_ok by reflexivity. now erewrite bind_raise by exact Hsetup. }
  pose proof (create_sidebar_spec inp w0) as Hside.
  intros w1 w2.
  match goal with |- _ = ?r => set (rhs := r) end.
  unfold main_script. erewrite bind_ok by reflexivity. erewrite bind_ok by exact Hsetup.
  cbv beta iota. erewrite bind_ok by exact Hside. fold w1.
  erewrite bind_ok by reflexivity. cbv beta iota. subst rhs.
  destruct (conversion_started (session w1)) eqn:Hstarted; [|reflexivity].
  cbn [negb].
  match goal with |- _ = ?r => set (rhs := r) end.
  erewrite bind_ok by reflexivity. erewrite bind_ok by reflexivity. cbv beta iota.
  change (session (set_page (page w1 ++ [Title "🔄 Converting Documents"]) w1))
    with (session w1).
  rewrite Hstarted. cbn [andb]. fold w2. subst rhs.
  destruct (bool_decide _); reflexivity.
Qed.

End AppRun.

(** ** Strings and paths *)

Lemma free_of_append c s1 s2 :
  free_of c (s1 +:+ s2) = free_of c s1 && free_of c s2.
Proof. induction s1 as [|a s1 IH]; simpl; [reflexivity|]. now rewrite IH, andb_assoc. Qed.

Lemma free_of_take c n s : free_of c s = true -> free_of c (Py.take n s) = true.
Proof.
  revert s. induction n as [|n IH]; intros [|a s]; simpl; try reflexivity.
  intros [Ha Hs]%andb_true_iff. rewrite Ha. now apply IH.
Qed.

Lemma free_of_drop c n s : free_of c s = true -> free_of c (Py.drop n s) = true.
Proof.
  revert s. induction n as [|n IH]; intros [|a s]; simpl; try easy.
  intros [Ha Hs]%andb_true_iff. now apply IH.
Qed.

Lemma find_free_of c s : free_of c s = true -> Py.find c s = -1.
Proof.
  induction s as [|a s IH]; simpl; [reflexivity|].
  intros [Ha Hs]%andb_true_iff. apply negb_true_iff in Ha. rewrite Ha, (IH Hs). reflexivity.
Qed.

Lemma rfind_free_of c s : free_of c s = true -> Py.rfind c s = -1.
Proof.
  induction s as [|a s IH]; simpl; [reflexivity|].
  intros [Ha Hs]%andb_true_iff. apply negb_true_iff in Ha. rewrite Ha, (IH Hs). reflexivity.
Qed.

Lemma split_free_of c s : free_of c s = true -> Py.split c s = [s].
Proof.
  induction s as [|a s IH]; simpl; [reflexivity|].
  intros [Ha Hs]%andb_true_iff. apply negb_true_iff in Ha. now rewrite Ha, (IH Hs).
Qed.

Lemma split_components_free c s : Forall (fun x => free_of c x = true) (Py.split c s).
Proof.
  induction s as [|a s IH]; simpl; [now repeat constructor|].
  destruct (Ascii.eqb a c) eqn:Ha; [now constructor|].
  destruct (Py.split c s) as [|x r]; [now repeat constructor; simpl; rewrite Ha|].
  inversion IH; subst. constructor; [simpl; now rewrite Ha|assumption].
Qed.

Lemma parse_well_formed part : well_formed (pathlib.parse part).
Proof.
  unfold well_formed, pathlib.parse. destruct (String.eqb part EmptyString); [constructor|].
  destruct (pathlib.splitroot part) as [root rel]. simpl.
  apply Forall_forall. intros x Hx. apply list_elem_of_In, filter_In in Hx as [Hx _].
  pose proof (split_components_free "/"%char rel) as H.
  rewrite Forall_forall in H. apply H. now apply list_elem_of_In.
Qed.

Lemma truediv_well_formed p key : well_formed p -> well_formed (p // key).
Proof.
  intros Hp. unfold pathlib.truediv. destruct (negb _); [apply parse_well_formed|].
  unfold well_formed. simpl. apply Forall_app. split; [exact Hp|apply parse_well_formed].
Qed.

Lemma stem_free_of p : well_formed p -> free_of "/"%char (pathlib.stem p) = true.
Proof.
  intros Hp. assert (Hname : free_of "/"%char (pathlib.name p) = true).
  { unfold pathlib.name. unfold well_formed in Hp.
    induction Hp as [|x l Hx Hl IH]; [reflexivity|].
    destruct l as [|y l]; [exact Hx|exact IH]. }
  unfold pathlib.stem. destruct (_ && _); [now apply free_of_take|exact Hname].
Qed.

(** Joining a single clean component appends it. *)
Lemma truediv_component p key :
  free_of "/"%char key = true -> key <> EmptyString -> key <> "." ->
  p // key = pathlib.mkPath (pathlib.root p) (pathlib.parts p ++ [key]).
Proof.
  intros Hfree Hne Hdot. unfold pathlib.truediv, pathlib.parse.
  destruct (String.eqb_spec key EmptyString) as [?|_]; [contradiction|].
  assert (Hroot : pathlib.splitroot key = (EmptyString, key)).
  { unfold pathlib.splitroot. destruct key as [|a k]; [contradiction|].
    cbn [free_of] in Hfree. apply andb_true_iff in Hfree as [Ha _].
    apply negb_true_iff in Ha. rewrite Ascii.eqb_sym in Ha.
    cbn [Py.startswith]. now rewrite Ha. }
  rewrite Hroot, (split_free_of _ _ Hfree). simpl.
  destruct (String.eqb_spec key EmptyString) as [?|_]; [contradiction|].
  destruct (String.eqb_spec key ".") as [?|_]; [contradiction|]. reflexivity.
Qed.

(** The output path of a conversion is one component below the output
    directory: the stem of the input followed by [.md]. *)
Lemma output_path_of_eq file_path output_dir :
  well_formed file_path ->
  output_path_of file_path output_dir
  = pathlib.mkPath (pathlib.root output_dir)
      (pathlib.parts output_dir ++ [pathlib.stem file_path +:+ ".md"]).
Proof.
  intros Hwf. unfold output_path_of. apply truediv_component.
  - rewrite free_of_append, (stem_free_of _ Hwf). reflexivity.
  - destruct (pathlib.stem file_path); discriminate.
  - destruct (pathlib.stem file_path) as [|a [|b t]]; discriminate.
Qed.

(** ** mimetypes: names without an extension *)

Lemma rfind_bounds c s : -1 <= Py.rfind c s < Z.of_nat (String.length s).
Proof.
  induction s as [|a s IH]; simpl; [lia|].
  destruct (0 <=? Py.rfind c s) eqn:H; [lia|]. destruct (Ascii.eqb a c); lia.
Qed.

(** The character at the index that [rfind] returns. *)
Lemma rfind_drop c s :
  0 <= Py.rfind c s ->
  exists t, Py.drop (Z.to_nat (Py.rfind c s)) s = String c t.
Proof.
  induction s as [|a s IH]; simpl; [lia|].
  destruct (0 <=? Py.rfind c s) eqn:H.
  - intros _. apply Z.leb_le in H. destruct (IH H) as [t Ht].
    exists t. replace (Z.to_nat (Py.rfind c s + 1)) with (S (Z.to_nat (Py.rfind c s))) by lia.
    exact Ht.
  - destruct (Ascii.eqb_spec a c) as [->|_]; [|lia]. intros _. now exists s.
Qed.

(** [rfind] in a suffix locates the same occurrence in the whole string. *)
Lemma rfind_of_drop c n s :
  0 <= Py.rfind c (Py.drop n s) ->
  Py.rfind c s = Z.of_nat n + Py.rfind c (Py.drop n s).
Proof.
  revert s. induction n as [|n IH]; intros s H.
  - destruct s; simpl in *; lia.
  - destruct s as [|a s]; [simpl in H; lia|]. simpl in H. specialize (IH s H).
    simpl. rewrite IH. destruct (0 <=? _) eqn:Hle; [lia|]. apply Z.leb_gt in Hle. lia.
Qed.

Lemma has_nondot_take n i s d t :
  Py.drop i s = String d t -> d <> "."%char -> (i < n)%nat ->
  posixpath.has_nondot (Py.take n s) = true.
Proof.
  revert n s. induction i as [|i IH]; intros n s Hdrop Hd Hlt.
  - destruct n as [|n]; [lia|]. destruct s as [|a s]; simpl in Hdrop; [discriminate|].
    injection Hdrop as -> ->. simpl.
    destruct (Ascii.eqb_spec d "."%char) as [?|_]; [contradiction|reflexivity].
  - destruct n as [|n]; [lia|]. destruct s as [|a s]; simpl in Hdrop; [discriminate|].
    simpl. destruct (Ascii.eqb a "."%char); [|reflexivity].
    apply (IH n s Hdrop Hd). lia.
Qed.

Lemma first_delim_drop s i d :
  urllib.first_delim s = Some (i, d) -> Py.drop i s = String d (Py.drop (S i) s).
Proof.
  revert i. induction s as [|a s IH]; intros i; simpl; [discriminate|].
  destruct (Ascii.eqb_spec a "/"%char) as [->|Hs]; simpl.
  { intros [= <- <-]. reflexivity. }
  destruct (Ascii.eqb_spec a ":"%char) as [->|Hc]; simpl.
  { intros [= <- <-]. reflexivity. }
  destruct (urllib.first_delim s) as [[j e]|]; [|discriminate].
  intros [= <- <-]. simpl. now apply IH.
Qed.

(** Without a slash, [splitext] splits at the last dot unless only dots
    precede it. *)
Lemma splitext_no_slash p :
  free_of "/"%char p = true ->
  posixpath.splitext p
  = if (-1 <? Py.rfind "."%char p)
       && posixpath.has_nondot (Py.take (Z.to_nat (Py.rfind "."%char p)) p)
    then (Py.upto p (Py.rfind "."%char p), Py.from p (Py.rfind "."%char p))
    else (p, EmptyString).
Proof.
  intros Hfree. unfold posixpath.splitext. rewrite (rfind_free_of _ _ Hfree).
  unfold Py.upto, Py.from. simpl Z.to_nat. simpl Py.drop.
  replace (Py.rfind "."%char p - (-1 + 1)) with (Py.rfind "."%char p) by lia.
  destruct p; reflexivity.
Qed.

Lemma splitext_no_ext p :
  free_of "/"%char p = true ->
  (posixpath.splitext p).2 = EmptyString ->
  posixpath.splitext p = (p, EmptyString)
  /\ ((-1 <? Py.rfind "."%char p)
      && posixpath.has_nondot (Py.take (Z.to_nat (Py.rfind "."%char p)) p) = false).
Proof.
  intros Hfree. rewrite (splitext_no_slash p Hfree).
  destruct (_ && _) eqn:Hcond; [|now split].
  apply andb_true_iff in Hcond as [Hdot _]. apply Z.ltb_lt in Hdot.
  destruct (rfind_drop "."%char p) as [t Ht]; [lia|].
  unfold Py.from. simpl. rewrite Ht. discriminate.
Qed.

(** After a scheme, a name without an extension has no dot left. *)
Lemma no_ext_after_scheme url i :
  free_of "/"%char url = true ->
  (posixpath.splitext url).2 = EmptyString ->
  urllib.first_delim url = Some (S i, ":"%char) ->
  Py.rfind "."%char (Py.drop (S (S i)) url) = -1.
Proof.
  intros Hfree Hext Hdelim.
  destruct (splitext_no_ext url Hfree Hext) as [_ Hcond].
  pose proof (rfind_bounds "."%char (Py.drop (S (S i)) url)) as Hb.
  destruct (Z.eq_dec (Py.rfind "."%char (Py.drop (S (S i)) url)) (-1)) as [|Hne]; [assumption|].
  exfalso.
  assert (Hwhole : Py.rfind "."%char url
                   = Z.of_nat (S (S i)) + Py.rfind "."%char (Py.drop (S (S i)) url))
    by (apply rfind_of_drop; lia).
  apply first_delim_drop in Hdelim.
  rewrite (has_nondot_take _ (S i) url ":"%char _ Hdelim) in Hcond; [|discriminate|lia].
  rewrite andb_true_r in Hcond. apply Z.ltb_ge in Hcond. lia.
Qed.

Lemma contains_free_of c s : free_of c s = true -> Py.contains c s = false.
Proof. intros H. unfold Py.contains. now rewrite (find_free_of _ _ H). Qed.

(** The result of [guess_type] on a file name that has no slash and no
    extension: no type at all, or [text/plain] for a name that reads as a
    [data:] URL. *)
Lemma guess_type_no_ext types_map filename :
  types_map EmptyString = None ->
  free_of "/"%char filename = true ->
  (posixpath.splitext filename).2 = EmptyString ->
  (mimetypes.guess_type types_map filename).1 = None
  \/ (mimetypes.guess_type types_map filename).1 = Some "text/plain".
Proof.
  intros Htable Hfree Hext.
  assert (Hplain : forall url,
            free_of "/"%char url = true ->
            posixpath.splitext url = (url, EmptyString) ->
            (let '(base, ext) := posixpath.splitext url in
             let '(base, ext) := mimetypes.suffix_loop 2 base ext in
             let '(encoding, base, ext) :=
               match Py.lookup mimetypes.encodings_map ext with
               | Some enc => let '(b, e) := posixpath.splitext base in (Some enc, b, e)
               | None => (None, base, ext)
               end in
             let ext := Py.lower ext in
             (types_map ext, encoding)).1 = None).
  { intros url _ ->. simpl. exact Htable. }
  unfold mimetypes.guess_type, mimetypes.guess_type_fuel, urllib._splittype.
  destruct (urllib.first_delim filename) as [[[|i] d]|] eqn:Hdelim.
  - rewrite bool_decide_eq_false_2 by discriminate. left.
    apply Hplain; [exact Hfree|]. now apply splitext_no_ext.
  - destruct (Ascii.eqb_spec d ":"%char) as [->|Hd].
    + set (rest := Py.drop (S (S i)) filename).
      assert (Hrest : free_of "/"%char rest = true) by now apply free_of_drop.
      destruct (bool_decide _).
      * destruct (Py.find ","%char rest <? 0); [now left|]. right.
        match goal with |- context [Py.contains "/"%char ?t] =>
          assert (Ht : Py.contains "/"%char t = false) end.
        { apply contains_free_of. destruct (0 <=? _); now apply free_of_take. }
        rewrite Ht, orb_true_r. reflexivity.
      * left. apply Hplain; [exact Hrest|].
        rewrite (splitext_no_slash rest Hrest).
        unfold rest. rewrite (no_ext_after_scheme filename i Hfree Hext Hdelim). reflexivity.
    + rewrite bool_decide_eq_false_2 by discriminate. left.
      apply Hplain; [exact Hfree|]. now apply splitext_no_ext.
  - rewrite bool_decide_eq_false_2 by discriminate. left.
    apply Hplain; [exact Hfree|]. now apply splitext_no_ext.
Qed.

(** ** mimetypes: the suffix loop runs at most once *)

Lemma drop_append a b n :
  Py.drop (String.length a + n) (a +:+ b) = Py.drop n b.
Proof. induction a as [|c a IH]; simpl; [reflexivity|exact IH]. Qed.

Lemma rfind_append c a b :
  0 <= Py.rfind c b ->
  Py.rfind c (a +:+ b) = Z.of_nat (String.length a) + Py.rfind c b.
Proof.
  intros H. pose proof (drop_append a b 0) as Hd. rewrite Nat.add_0_r in Hd.
  simpl in Hd. rewrite (rfind_of_drop c (String.length a) (a +:+ b)); rewrite Hd; lia.
Qed.

(** The extension of [base] followed by a replacement suffix is the
    replacement's own last extension, or nothing. *)
Lemma splitext_append_ext base repl :
  0 <= Py.rfind "."%char repl ->
  (posixpath.splitext (base +:+ repl)).2 = EmptyString
  \/ (posixpath.splitext (base +:+ repl)).2 = Py.from repl (Py.rfind "."%char repl).
Proof.
  intros Hdot. unfold posixpath.splitext. destruct (_ && _); [|now left]. right.
  simpl. rewrite (rfind_append _ base repl Hdot). unfold Py.from.
  replace (Z.to_nat (Z.of_nat (String.length base) + Py.rfind "."%char repl))
    with (String.length base + Z.to_nat (Py.rfind "."%char repl))%nat by lia.
  apply drop_append.
Qed.

Lemma suffix_map_values k v :
  Py.lookup mimetypes.suffix_map k = Some v ->
  v ∈ [".svg.gz"; ".tar.gz"; ".tar.bz2"; ".tar.xz"].
Proof.
  unfold mimetypes.suffix_map. cbn [Py.lookup].
  repeat (destruct (String.eqb _ k); [intros [= <-]; set_solver|]).
  discriminate.
Qed.

Lemma suffix_loop_once fuel base ext :
  mimetypes.suffix_loop (S fuel) base ext = mimetypes.suffix_loop 1 base ext.
Proof.
  cbn [mimetypes.suffix_loop].
  destruct (Py.lookup mimetypes.suffix_map (Py.lower ext)) as [repl|] eqn:Hk; [|reflexivity].
  apply suffix_map_values in Hk.
  assert (Hext : Py.lookup mimetypes.suffix_map
                   (Py.lower (posixpath.splitext (base +:+ repl)).2) = None).
  { assert (Hdot : 0 <= Py.rfind "."%char repl).
    { repeat (apply elem_of_cons in Hk as [->|Hk]; [vm_compute; discriminate|]).
      now apply elem_of_nil in Hk. }
    destruct (splitext_append_ext base repl Hdot) as [->| ->]; [reflexivity|].
    repeat (apply elem_of_cons in Hk as [->|Hk]; [reflexivity|]).
    now apply elem_of_nil in Hk. }
  destruct (posixpath.splitext (base +:+ repl)) as [base' ext']. cbn [snd] in Hext.
  destruct fuel as [|fuel]; [reflexivity|]. cbn [mimetypes.suffix_loop]. now rewrite Hext.
Qed.

(** So [guess_type] does not depend on the fuel, once there is some. *)
Lemma guess_type_fuel_enough types_map fuel url :
  mimetypes.guess_type_fuel types_map (S fuel) url = mimetypes.guess_type types_map url.
Proof.
  unfold mimetypes.guess_type, mimetypes.guess_type_fuel.
  destruct (urllib._splittype url) as [scheme rest].
  destruct (bool_decide _); [reflexivity|].
  destruct (posixpath.splitext rest) as [base ext].
  now rewrite (suffix_loop_once fuel), (suffix_loop_once 1).
Qed.

(** ** Facts about the outcomes of a run *)

Section OutcomeFacts.

Variable guess_type : string -> option string * option string.
Variable os_open : filesystem -> string -> option exn.
Variable markitdown : option llm -> filesystem -> string -> result string.

Abbreviation is_image_file := (is_image_file guess_type).
Abbreviation converter_config := (converter_config guess_type).
Abbreviation outcome_of := (outcome_of guess_type os_open markitdown).
Abbreviation outcomes := (outcomes guess_type os_open markitdown).
Abbreviation record_of := (record_of guess_type).
Abbreviation new_records := (new_records guess_type).
Abbreviation skips := (skips guess_type).
Abbreviation new_calls := (new_calls guess_type).
Abbreviation library_calls := (library_calls guess_type).

Lemma new_records_cons docs_dir converted_dir f o fos :
  new_records docs_dir converted_dir ((f, o) :: fos)
  = match o with
    | Converted content => [record_of converted_dir docs_dir f content]
    | _ => []
    end ++ new_records docs_dir converted_dir fos.
Proof. unfold new_records. simpl. now destruct o. Qed.


(** Every record comes from an uploaded file whose iteration ended in
    [Converted], and holds the text that the conversion returned. *)
Lemma new_records_origin key client docs_dir converted_dir files disk r :
  r ∈ new_records docs_dir converted_dir
        (outcomes key client docs_dir converted_dir files disk) ->
  exists f d,
    f ∈ files
    /\ outcome_of key client docs_dir converted_dir f d = Converted (cf_content r)
    /\ r = record_of converted_dir docs_dir f (cf_content r).
Proof.
  revert disk. induction files as [|f files IH]; intros disk.
  - intros H. inversion H.
  - cbn [outcomes]. rewrite new_records_cons. intros [H|H]%elem_of_app.
    + destruct (outcome_of key client docs_dir converted_dir f disk) eqn:Ho;
        try (inversion H; fail).
      apply list_elem_of_singleton in H. subst r. simpl.
      exists f, disk. split; [left|]. now split.
    + destruct (IH _ H) as (f' & d & Hin & Ho & Hr). exists f', d. split; [now right|]. now split.
Qed.





Lemma set_converted_files_id s : set_converted_files (converted_files s) s = s.
Proof. now destruct s. Qed.

(** With no credential, the warnings of a run are those of the image files,
    one each, in upload order. *)
Lemma new_notices_warnings client docs_dir converted_dir files disk :
  List.filter is_warning
    (new_notices (outcomes EmptyString client docs_dir converted_dir files disk))
  = map (fun f => skip_warning (name f))
      (List.filter (fun f => truthy (is_image_file (name f))) files).
Proof.
  revert disk. induction files as [|f files IH]; intros disk; [reflexivity|].
  simpl. unfold new_notices in *. simpl. rewrite List.filter_app, IH.
  unfold outcome_of, skips. simpl String.eqb. rewrite andb_true_r.
  destruct (truthy (is_image_file (name f))); [reflexivity|].
  destruct (os_open disk _); [reflexivity|].
  destruct (markitdown _ _ _); [|reflexivity].
  destruct (os_open _ _); reflexivity.
Qed.


Lemma converter_config_Some file_path client l :
  converter_config file_path client = Some l <->
  truthy (is_image_file (pathlib.str file_path)) = true
  /\ exists c, client = Some c /\ l = mkLlm c "gpt-4o".
Proof.
  unfold converter_config. destruct (truthy _), client as [c|]; split.
  all: try (intros [? (c' & ? & ?)]; simplify_eq; reflexivity).
  all: try discriminate.
  intros [= <-]. split; [reflexivity|]. now exists c.
Qed.

Lemma client_for_Some key c :
  client_for key = Some c -> c = mkOpenAI key /\ key <> EmptyString.
Proof.
  unfold client_for. destruct (String.eqb_spec key EmptyString) as [->|Hne]; simpl.
  - discriminate.
  - intros [= <-]. now split.
Qed.

Lemma new_calls_ok key docs_dir fos :
  Forall (call_ok key) (new_calls docs_dir (client_for key) fos).
Proof.
  unfold new_calls. induction fos as [|[f o] fos IH]; simpl; [constructor|].
  apply Forall_app. split; [|exact IH].
  unfold library_calls. simpl.
  assert (Hcfg : forall l,
            converter_config (docs_dir // name f) (client_for key) = Some l ->
            l = mkLlm (mkOpenAI key) "gpt-4o" /\ key <> EmptyString).
  { intros l [_ (c & Hc & ->)]%converter_config_Some.
    apply client_for_Some in Hc as [-> Hne]. now split. }
  destruct o; repeat first [exact Hcfg | constructor].
Qed.

Lemma client_calls_ok key : Forall (call_ok key) (client_calls key).
Proof.
  unfold client_calls. destruct (String.eqb_spec key EmptyString) as [->|Hne]; simpl.
  - constructor.
  - repeat constructor. exact Hne.
Qed.

Lemma sidebar_session_reset inp s records buffer :
  in_convert inp = true ->
  sidebar_session inp (set_combined_markdown buffer (set_converted_files records s))
  = sidebar_session inp s.
Proof.
  unfold sidebar_session. intros ->. destruct s. now destruct (in_files inp).
Qed.

Lemma sidebar_session_convert inp s :
  in_convert inp = true ->
  converted_files (sidebar_session inp s) = []
  /\ combined_markdown (sidebar_session inp s) = EmptyString
  /\ conversion_started (sidebar_session inp s) = true.
Proof. unfold sidebar_session. intros ->. now destruct (in_files inp). Qed.






End OutcomeFacts.

(** * The properties of the specification *)

Section SpecProperties.

Variable guess_type : string -> option string * option string.
Variable os_open : filesystem -> string -> option exn.
Variable markitdown : option llm -> filesystem -> string -> result string.

Abbreviation is_image_file := (is_image_file guess_type).
Abbreviation get_file_icon := (get_file_icon guess_type).
Abbreviation save_uploaded_file := (save_uploaded_file os_open).
Abbreviation convert_to_markdown := (convert_to_markdown guess_type os_open markitdown).
Abbreviation process_file := (process_file guess_type os_open markitdown).
Abbreviation convert_files := (convert_files guess_type os_open markitdown).
Abbreviation create_sidebar := (create_sidebar guess_type).
Abbreviation show_results := (show_results guess_type).
Abbreviation main_script := (main_script guess_type os_open markitdown).
Abbreviation main := (main guess_type os_open markitdown).
Abbreviation converter_config := (converter_config guess_type).
Abbreviation outcome_of := (outcome_of guess_type os_open markitdown).
Abbreviation outcomes := (outcomes guess_type os_open markitdown).
Abbreviation record_of := (record_of guess_type).
Abbreviation new_records := (new_records guess_type).
Abbreviation new_calls := (new_calls guess_type).
Abbreviation library_calls := (library_calls guess_type).
Abbreviation skips := (skips guess_type).

(** A run of [main] either stops before the conversion, with the session as
    it was or as the sidebar left it, or runs [convert_files] on the state
    that the sidebar left and then only renders. *)
Lemma main_cases inp disk stored :
  let s0 := initialize_session_state stored in
  let s1 := sidebar_session inp s0 in
  let final := (main inp disk stored).2 in
  (calls final = [] /\ (session final = s0 \/ session final = s1))
  \/ (converted_files s1 = []
      /\ exists w w' extra,
           session w = s1
           /\ calls w = []
           /\ fs_files (fs w) = fs_files disk
           /\ convert_files (in_api_key inp) (pathlib.parse "documents")
                (pathlib.parse "converted") w = (Ok tt, w')
           /\ final = set_page (page w' ++ extra) w').
Proof.
  intros s0 s1 final. subst final. unfold main. fold s0.
  set (w := mkWorld disk s0 [] None None []).
  pose proof (main_script_eq guess_type os_open markitdown inp w) as Hmain.
  destruct (setup_directories_spec
              (set_page (page w ++ [Page_config "wide" "MarkItDown Converter"]) w))
    as (r & disk' & Hsetup & Hfiles & Hr).
  rewrite Hsetup in Hmain. destruct r as [[docs_dir converted_dir]|e].
  2:{ left. rewrite Hmain. split; [reflexivity|]. now left. }
  destruct Hr as (Hdirs & _). injection Hdirs as -> ->.
  cbv zeta in Hmain. cbn [fst snd] in Hmain. rewrite Hmain. clear Hmain.
  set (w1 := set_session _ _). change (session w1) with s1.
  destruct (conversion_started s1); cbn [negb].
  2:{ left. destruct (page_only_show_welcome_screen w1) as [e ->].
      split; [reflexivity|]. now right. }
  destruct (bool_decide_reflect (converted_files s1 = [])) as [Hnil|Hnil].
  2:{ left. split; [reflexivity|]. now right. }
  right. split; [exact Hnil|].
  set (w2 := set_page _ w1).
  destruct (convert_files_spec guess_type os_open markitdown (in_api_key inp)
              (pathlib.parse "documents") (pathlib.parse "converted") w2) as (w' & Hrun & _).
  destruct (page_only_show_results guess_type inp (pathlib.parse "documents") w') as [e He].
  exists w2, w', e. split; [reflexivity|]. split; [reflexivity|]. split; [exact Hfiles|].
  split; [exact Hrun|]. erewrite bind_ok by exact Hrun. exact He.
Qed.




(** C3. An image file met without a credential is skipped: (1) its loop
    iteration shows exactly one warning and nothing else, touches neither
    the disk nor the conversion library, records nothing and returns
    normally with the combined content unchanged; (2) a run without a
    credential completes, holds no record of an image file, and shows one
    warning per uploaded image file, in upload order. *)
Theorem image_without_credential_is_skipped :
  (forall client docs_dir converted_dir total combined_content idx f w,
     truthy (is_image_file (name f)) = true ->
     exists w',
       process_file EmptyString client docs_dir converted_dir total combined_content idx f w
       = (Ok combined_content, w')
       /\ page w'
          = page w ++ [Warning ("⚠️ Skipping " +:+ name f +:+ " - OpenAI API Key required")]
       /\ fs w' = fs w
       /\ calls w' = calls w
       /\ session w' = session w)
  /\ (forall docs_dir converted_dir w,
        converted_files (session w) = [] ->
        exists w' extra,
          convert_files EmptyString docs_dir converted_dir w = (Ok tt, w')
          /\ (forall r, r ∈ converted_files (session w') ->
                truthy (is_image_file (cf_name r)) = false)
          /\ page w' = page w ++ extra
          /\ List.filter is_warning extra
             = map (fun f => skip_warning (name f))
                 (List.filter (fun f => truthy (is_image_file (name f)))
                    (uploaded_files (session w)))).
Proof.
  split.
  - intros client docs_dir converted_dir total cc idx f w Himg.
    destruct (process_file_spec guess_type os_open markitdown EmptyString client docs_dir
                converted_dir total cc idx f w)
      as (w' & Hrun & _ & _ & Hsess & Hpage & Hcalls & Hfs).
    assert (Ho : outcome_of EmptyString client docs_dir converted_dir f (fs w) = Skipped).
    { unfold outcome_of, skips. now rewrite Himg. }
    rewrite Ho in *. simpl in *. rewrite set_converted_files_id in Hsess.
    rewrite app_nil_r in Hcalls. exists w'. auto.
  - intros docs_dir converted_dir w Hnil.
    destruct (convert_files_spec guess_type os_open markitdown EmptyString docs_dir
                converted_dir w) as (w' & Hrun & Hsess & Hpage & _).
    eexists w', _. split; [exact Hrun|]. split; [|split; [exact Hpage|]].
    + rewrite Hsess, Hnil. simpl. intros r Hr.
      apply new_records_origin in Hr as (f & d & _ & Ho & Hrec).
      rewrite Hrec. simpl. unfold outcome_of, skips in Ho. simpl String.eqb in Ho.
      rewrite andb_true_r in Ho.
      destruct (truthy (is_image_file (name f))); [discriminate|reflexivity].
    + simpl. apply new_notices_warnings.
Qed.

(** C5. The AI client reaches the conversion library only for images: (1)
    [convert_to_markdown] builds exactly one converter and calls it once on
    the file; the converter carries the client and the model gpt-4o if and
    only if the file is classified as an image and a client is present, and
    is the plain converter for every non-image file, whatever the
    credential; (2) over a whole run of the script the client is built only
    from a non-empty credential, every converter that carries a client
    carries that one, and no request is made through the client directly. *)
Theorem llm_client_only_for_images :
  (forall file_path output_dir client w,
     exists cfg r w',
       convert_to_markdown file_path output_dir client w = (Ok r, w')
       /\ calls w'
          = calls w ++ [MarkItDown_init cfg; MarkItDown_convert cfg (pathlib.str file_path)]
       /\ (forall l,
             cfg = Some l <->
             truthy (is_image_file (pathlib.str file_path)) = true
             /\ exists c, client = Some c /\ l = mkLlm c "gpt-4o")
       /\ (truthy (is_image_file (pathlib.str file_path)) = false -> cfg = None))
  /\ (forall inp disk stored,
        Forall (call_ok (in_api_key inp)) (calls (main inp disk stored).2)).
Proof.
  split.
  - intros file_path output_dir client w.
    pose proof (convert_to_markdown_eq guess_type os_open markitdown
                  file_path output_dir client w) as Heq.
    cbv zeta in Heq. exists (converter_config file_path client).
    assert (Hnone : truthy (is_image_file (pathlib.str file_path)) = false ->
                    converter_config file_path client = None).
    { unfold converter_config. now intros ->. }
    destruct (markitdown _ _ _) as [content|e]; [destruct (os_open _ _) as [e|]|];
      eexists _, _; (split; [exact Heq|]); simpl;
      (split; [reflexivity|]); (split; [apply converter_config_Some|exact Hnone]).
  - intros inp disk stored.
    destruct (main_cases inp disk stored)
      as [[-> _]|(_ & w & w' & e & _ & Hcalls & _ & Hrun & ->)]; [constructor|].
    destruct (convert_files_spec guess_type os_open markitdown (in_api_key inp)
                (pathlib.parse "documents") (pathlib.parse "converted") w)
      as (w'' & Hrun' & _ & _ & Hc & _).
    rewrite Hrun in Hrun'. injection Hrun' as <-. simpl. rewrite Hc, Hcalls. simpl.
    apply Forall_app. split; [apply client_calls_ok|apply new_calls_ok].
Qed.

(** C6. Pressing the convert button clears the previous results before any
    file is processed: (1) [create_sidebar] leaves the records empty, the
    combined buffer empty and the conversion started; (2) when the two
    directories can be set up, the whole run of the script is the same
    whatever records and buffer the previous run had left, so nothing of them
    is carried over. *)
Theorem convert_button_resets_results :
  (forall inp w,
     in_convert inp = true ->
     exists w',
       create_sidebar inp w = (Ok (in_api_key inp), w')
       /\ converted_files (session w') = []
       /\ combined_markdown (session w') = EmptyString
       /\ conversion_started (session w') = true)
  /\ (forall inp disk s records buffer,
        in_convert inp = true ->
        ("documents" ∈ fs_dirs disk \/ fs_files disk !! "documents" = None) ->
        ("converted" ∈ fs_dirs disk \/ fs_files disk !! "converted" = None) ->
        main inp disk (Some (set_combined_markdown buffer (set_converted_files records s)))
        = main inp disk (Some s)).
Proof.
  split.
  - intros inp w Hclick. eexists. split; [apply create_sidebar_spec|].
    simpl. now apply sidebar_session_convert.
  - intros inp disk s records buffer Hclick Hdocs Hconv.
    unfold main. simpl initialize_session_state.
    set (s' := set_combined_markdown buffer (set_converted_files records s)).
    pose proof (main_script_eq guess_type os_open markitdown inp
                  (mkWorld disk s' [] None None [])) as H1.
    pose proof (main_script_eq guess_type os_open markitdown inp
                  (mkWorld disk s [] None None [])) as H2.
    assert (Hsetup : forall s0,
              setup_directories
                (set_page ([] ++ [Page_config "wide" "MarkItDown Converter"])
                   (mkWorld disk s0 [] None None []))
              = (Ok (pathlib.parse "documents", pathlib.parse "converted"),
                 mkWorld (with_directories disk) s0
                   [Page_config "wide" "MarkItDown Converter"] None None [])).
    { intros s0. rewrite setup_directories_ok; [reflexivity|assumption..]. }
    simpl page in H1, H2. rewrite Hsetup in H1, H2.
    cbv zeta in H1, H2. rewrite H1, H2. subst s'. cbn [session page].
    rewrite (sidebar_session_reset inp s records buffer Hclick).
    reflexivity.
Qed.


(** C4. Directories and output files: (1) when no regular file stands in
    the way, [setup_directories] succeeds, returns the two paths, leaves both
    directories in place and every file as it was, and changes nothing at
    all when both directories already exist; (2) [convert_to_markdown]
    always returns and touches no path but the output directory joined with
    the input's stem and [.md]; when it returns an output, that one file
    holds the text of the conversion; a conversion and a write that go
    through do return that output; (3) for an upload saved under [documents], that path
    is the single component [stem.md] below [converted]. *)
Theorem directories_and_output_files :
  (forall w,
     ("documents" ∈ fs_dirs (fs w) \/ fs_files (fs w) !! "documents" = None) ->
     ("converted" ∈ fs_dirs (fs w) \/ fs_files (fs w) !! "converted" = None) ->
     exists w',
       setup_directories w
       = (Ok (pathlib.parse "documents", pathlib.parse "converted"), w')
       /\ fs_dirs (fs w') = {["converted"]} ∪ ({["documents"]} ∪ fs_dirs (fs w))
       /\ fs_files (fs w') = fs_files (fs w)
       /\ ("documents" ∈ fs_dirs (fs w) -> "converted" ∈ fs_dirs (fs w) -> w' = w))
  /\ (forall file_path output_dir client w,
        let output_path := output_dir // (pathlib.stem file_path +:+ ".md") in
        (exists r w',
           convert_to_markdown file_path output_dir client w = (Ok r, w')
           /\ fs_dirs (fs w') = fs_dirs (fs w)
           /\ (forall q, q <> pathlib.str output_path ->
                 fs_files (fs w') !! q = fs_files (fs w) !! q)
           /\ (forall p content,
                 r = Some (p, content) ->
                 p = output_path
                 /\ markitdown (converter_config file_path client) (fs w)
                      (pathlib.str file_path) = Ok content
                 /\ fs_files (fs w') !! pathlib.str output_path = Some content))
        /\ (forall content,
              markitdown (converter_config file_path client) (fs w)
                (pathlib.str file_path) = Ok content ->
              os_open (fs w) (pathlib.str output_path) = None ->
              exists w',
                convert_to_markdown file_path output_dir client w
                = (Ok (Some (output_path, content)), w')))
  /\ (forall file_name,
        let file_path := pathlib.parse "documents" // file_name in
        let output_path := pathlib.parse "converted" // (pathlib.stem file_path +:+ ".md") in
        output_path = pathlib.mkPath EmptyString ["converted"; pathlib.stem file_path +:+ ".md"]
        /\ pathlib.str output_path = "converted/" +:+ pathlib.stem file_path +:+ ".md").
Proof.
  split; [|split].
  - intros w Hdocs Hconv.
    destruct (setup_directories_spec w) as (r & disk & Hrun & Hfiles & Hr).
    destruct r as [dirs|e].
    + destruct Hr as (-> & Hdirs & _). eexists. split; [exact Hrun|]. simpl.
      split; [exact Hdirs|]. split; [exact Hfiles|].
      intros Hd Hc. destruct w as [[dirs files] s p pb sc c], disk as [dirs' files'].
      simpl in *. subst. unfold set_fs. simpl. do 2 f_equal.
      apply leibniz_equiv. set_solver.
    + destruct Hr as (_ & [[Hn [x Hx]]|[Hn [x Hx]]]).
      * destruct Hdocs as [Hd|Hd]; [contradiction|congruence].
      * destruct Hconv as [Hc|Hc]; [contradiction|congruence].
  - intros file_path output_dir client w output_path.
    pose proof (convert_to_markdown_eq guess_type os_open markitdown
                  file_path output_dir client w) as Heq.
    cbv zeta in Heq. fold (converter_config file_path client) in Heq.
    unfold output_path_of in Heq. fold output_path in Heq.
    split.
    + destruct (markitdown _ _ _) as [content|e]; [destruct (os_open _ _) as [e|]|];
        eexists _, _; (split; [exact Heq|]); simpl; (split; [reflexivity|]);
        (split; [intros q Hq; rewrite ?lookup_insert_ne by congruence; reflexivity|]);
        intros p c [= <- <-]; repeat split; try reflexivity; apply lookup_insert_eq.
    + intros content Hconv Hopen. rewrite Hconv, Hopen in Heq. eexists. exact Heq.
  - intros file_name file_path output_path.
    assert (Hwf : well_formed file_path).
    { apply truediv_well_formed, parse_well_formed. }
    assert (Heq : output_path
                  = pathlib.mkPath EmptyString ["converted"; pathlib.stem file_path +:+ ".md"]).
    { apply (output_path_of_eq file_path (pathlib.parse "converted") Hwf). }
    split; [exact Heq|]. rewrite Heq. unfold pathlib.str. simpl.
    destruct (String.eqb_spec ("converted/" +:+ pathlib.stem file_path +:+ ".md") EmptyString)
      as [H|_]; [discriminate|reflexivity].
Qed.


End SpecProperties.

(** ** File classification *)

Lemma get_file_icon_generic guess filename :
  truthy (is_image_file guess filename) = false ->
  Py.endswith_any filename [".pdf"; ".doc"; ".docx"; ".xls"; ".xlsx"; ".txt"] = false ->
  get_file_icon guess filename = "📎".
Proof.
  intros Himg Hsuf. unfold get_file_icon. rewrite Himg.
  unfold Py.endswith_any in *. cbn [existsb] in *.
  repeat (apply orb_false_iff in Hsuf as [? Hsuf]).
  repeat match goal with H : Py.endswith _ _ = false |- _ => rewrite H; clear H end.
  reflexivity.
Qed.

(** C7. Names that yield no MIME type are non-image: (1) whatever the type
    tables hold, a name for which [guess_type] returns no type is classified
    [None], which is falsy, and gets the generic icon when it ends in none
    of the suffixes that [get_file_icon] knows; (2) with the standard
    library's [guess_type], a file name (no slash in it) that has no
    extension is classified non-image and gets the generic icon under the
    same condition; (3) the classification, the icon and the decision to
    skip depend on the name alone: uploads with the same name and different
    bytes are treated alike. *)
Theorem unrecognized_names_are_non_image :
  (forall guess filename,
     (guess filename).1 = None ->
     is_image_file guess filename = PyNone
     /\ truthy (is_image_file guess filename) = false
     /\ (Py.endswith_any filename [".pdf"; ".doc"; ".docx"; ".xls"; ".xlsx"; ".txt"] = false ->
         get_file_icon guess filename = "📎"))
  /\ (forall types_map filename,
        types_map EmptyString = None ->
        free_of "/"%char filename = true ->
        (posixpath.splitext filename).2 = EmptyString ->
        truthy (is_image_file (mimetypes.guess_type types_map) filename) = false
        /\ (Py.endswith_any filename [".pdf"; ".doc"; ".docx"; ".xls"; ".xlsx"; ".txt"] = false ->
            get_file_icon (mimetypes.guess_type types_map) filename = "📎"))
  /\ (forall guess key f1 f2,
        name f1 = name f2 ->
        is_image_file guess (name f1) = is_image_file guess (name f2)
        /\ get_file_icon guess (name f1) = get_file_icon guess (name f2)
        /\ skips guess key f1 = skips guess key f2).
Proof.
  split; [|split].
  - intros guess filename Hnone.
    assert (H : is_image_file guess filename = PyNone).
    { unfold is_image_file. destruct (guess filename) as [mimetype encoding].
      simpl in Hnone. now rewrite Hnone. }
    split; [exact H|]. split; [now rewrite H|].
    apply get_file_icon_generic. now rewrite H.
  - intros types_map filename Htable Hfree Hext.
    assert (H : truthy (is_image_file (mimetypes.guess_type types_map) filename) = false).
    { unfold is_image_file.
      destruct (guess_type_no_ext types_map filename Htable Hfree Hext) as [H|H];
        destruct (mimetypes.guess_type types_map filename) as [mimetype encoding];
        simpl in H; rewrite H; reflexivity. }
    split; [exact H|]. now apply get_file_icon_generic.
  - intros guess key f1 f2 Hname. unfold skips. now rewrite Hname.
Qed.


Lemma widget_keys_app p1 p2 : widget_keys (p1 ++ p2) = widget_keys p1 ++ widget_keys p2.
Proof. apply omap_app. Qed.




Lemma widget_keys_no_download p : widget_keys p = [] -> List.filter is_download p = [].
Proof.
  induction p as [|e p IH]; [reflexivity|].
  destruct e; simpl; try exact IH. discriminate.
Qed.

Lemma widget_keys_new_notices fos : widget_keys (new_notices fos) = [].
Proof.
  unfold new_notices. induction fos as [|[f o] fos IH]; [reflexivity|].
  simpl. rewrite widget_keys_app, IH. now destruct o.
Qed.


(** ** Download buttons *)

(** C9. The downloads offered after a conversion run.  The script asks for
    one download of the combined buffer, named with the time, and one per
    record, each with MIME type text/markdown, but it keys the combined
    button [download_all] and each record's button [download_] followed by
    the file name.  On the upload named [all] the second request repeats the
    key of the first: the run ends in [DuplicateWidgetID] with only the
    combined download on the page, although the file has been converted and
    recorded.  Two uploads with one name collide in the same way: only the
    first of them gets its download. *)
Theorem download_keys_collide :
  (let r := Demo.run EmptyString [Demo.all_file] true Demo.disk0 None in
   r.1 = Raise (mkExn "DuplicateWidgetID" "download_all")
   /\ map cf_name (converted_files (session r.2)) = ["all"]
   /\ List.filter is_download (page r.2)
      = [Download_button "📥 Download All as Single File"
           (combined_markdown (session r.2))
           "combined_markdown_20241225_090507.md" "text/markdown" "download_all"])
  /\ (let r := Demo.run EmptyString [Demo.notes; Demo.notes] true Demo.disk0 None in
      r.1 = Raise (mkExn "DuplicateWidgetID" "download_notes.txt")
      /\ map cf_name (converted_files (session r.2)) = ["notes.txt"; "notes.txt"]
      /\ map widget_key (List.filter is_download (page r.2))
         = [Some "download_all"; Some "download_notes.txt"]).
Proof. split; vm_compute; repeat split; reflexivity. Qed.

(** * Worked instances *)



(** C3 at work: photo.png without a credential. *)
Lemma image_without_credential_is_skipped_witness :
  (exists w',
     Demo.process_file EmptyString 1 Demo.photo (Demo.ready [Demo.notes; Demo.photo])
     = (Ok [], w')
     /\ page w' = [Warning "⚠️ Skipping photo.png - OpenAI API Key required"]
     /\ fs w' = Demo.disk0
     /\ calls w' = [])
  /\ (exists w' extra,
        Demo.convert_files EmptyString (Demo.ready [Demo.notes; Demo.photo]) = (Ok tt, w')
        /\ (forall r, r ∈ converted_files (session w') ->
              truthy (is_image_file Demo.guess_type (cf_name r)) = false)
        /\ page w' = extra
        /\ List.filter is_warning extra = [skip_warning "photo.png"]).
Proof.
  pose proof (image_without_credential_is_skipped
                Demo.guess_type Demo.os_open Demo.markitdown) as (Hstep & Hrun).
  split.
  - destruct (Hstep (client_for EmptyString) Demo.docs_dir Demo.converted_dir 3%nat [] 1%nat
                Demo.photo (Demo.ready [Demo.notes; Demo.photo]) eq_refl)
      as (w' & H1 & H2 & H3 & H4 & _).
    exists w'. split; [exact H1|]. split; [exact H2|]. split; [exact H3|exact H4].
  - destruct (Hrun Demo.docs_dir Demo.converted_dir (Demo.ready [Demo.notes; Demo.photo])
                eq_refl) as (w' & extra & H1 & H2 & H3 & H4).
    exists w', extra. split; [exact H1|]. split; [exact H2|]. split; [exact H3|exact H4].
Defined.

(** C4 at work: an empty disk, and the conversion of notes.txt. *)
Lemma directories_and_output_files_witness :
  (exists w',
     setup_directories (Demo.ready [])
     = (Ok (pathlib.parse "documents", pathlib.parse "converted"), w')
     /\ fs_dirs (fs w') = {["converted"]} ∪ ({["documents"]} ∪ ∅)
     /\ fs_files (fs w') = ∅)
  /\ (exists w',
        convert_to_markdown Demo.guess_type Demo.os_open Demo.markitdown
          (Demo.docs_dir // "notes.txt") Demo.converted_dir None (Demo.ready [Demo.notes])
        = (Ok (Some (Demo.converted_dir // "notes.md", "md:")), w')).
Proof.
  pose proof (directories_and_output_files Demo.guess_type Demo.os_open Demo.markitdown)
    as (Hsetup & Hconvert & _).
  split.
  - destruct (Hsetup (Demo.ready [])) as (w' & H1 & H2 & H3 & _).
    + right. reflexivity.
    + right. reflexivity.
    + exists w'. split; [exact H1|]. split; [exact H2|exact H3].
  - destruct (Hconvert (Demo.docs_dir // "notes.txt") Demo.converted_dir None
                (Demo.ready [Demo.notes])) as (_ & Hok).
    exact (Hok "md:" eq_refl eq_refl).
Defined.

(** C6 at work: a stale record and buffer make no difference to the run. *)
Lemma convert_button_resets_results_witness :
  (exists w',
     create_sidebar Demo.guess_type
       (mkInputs false EmptyString [Demo.notes] true Demo.now) (Demo.ready [Demo.photo])
     = (Ok EmptyString, w')
     /\ converted_files (session w') = []
     /\ combined_markdown (session w') = EmptyString
     /\ conversion_started (session w') = true)
  /\ Demo.run EmptyString [Demo.notes] true Demo.disk0
       (Some (set_combined_markdown "stale"
                (set_converted_files
                   [mkConverted "old.txt" (Demo.converted_dir // "old.md") "stale" PyNone]
                   (initialize_session_state None))))
     = Demo.run EmptyString [Demo.notes] true Demo.disk0 (Some (initialize_session_state None)).
Proof.
  pose proof (convert_button_resets_results Demo.guess_type Demo.os_open Demo.markitdown)
    as (Hside & Hrun).
  split.
  - exact (Hside (mkInputs false EmptyString [Demo.notes] true Demo.now)
             (Demo.ready [Demo.photo]) eq_refl).
  - exact (Hrun (mkInputs false EmptyString [Demo.notes] true Demo.now) Demo.disk0
             (initialize_session_state None)
             [mkConverted "old.txt" (Demo.converted_dir // "old.md") "stale" PyNone]
             "stale" eq_refl (or_intror eq_refl) (or_intror eq_refl)).
Defined.

(** C7 at work: an unknown extension, no extension, and two uploads with one
    name. *)
Lemma unrecognized_names_are_non_image_witness :
  (is_image_file Demo.guess_type "archive.xyz" = PyNone
   /\ get_file_icon Demo.guess_type "archive.xyz" = "📎")
  /\ (truthy (is_image_file Demo.guess_type "Makefile") = false
      /\ get_file_icon Demo.guess_type "Makefile" = "📎")
  /\ skips Demo.guess_type EmptyString (mkUploadedFile "photo.png" "one")
     = skips Demo.guess_type EmptyString (mkUploadedFile "photo.png" "two").
Proof.
  pose proof unrecognized_names_are_non_image as (Hnone & Hnoext & Hname).
  split; [|split].
  - destruct (Hnone Demo.guess_type "archive.xyz" eq_refl) as (H1 & _ & H2).
    split; [exact H1|exact (H2 eq_refl)].
  - destruct (Hnoext Demo.types_map "Makefile" eq_refl eq_refl eq_refl) as (H1 & H2).
    split; [exact H1|exact (H2 eq_refl)].
  - exact (proj2 (proj2 (Hname Demo.guess_type EmptyString
                           (mkUploadedFile "photo.png" "one")
                           (mkUploadedFile "photo.png" "two") eq_refl))).
Defined.



(** * Further properties of the script *)

Lemma world_eq (w1 w2 : world) :
  fs w1 = fs w2 -> session w1 = session w2 -> page w1 = page w2 ->
  progress_bar w1 = progress_bar w2 -> status_container w1 = status_container w2 ->
  calls w1 = calls w2 -> w1 = w2.
Proof. destruct w1, w2. simpl. now intros -> -> -> -> -> ->. Qed.

Lemma show_welcome_screen_eq w :
  show_welcome_screen w = (Ok tt, set_page (page w ++ welcome_elements) w).
Proof.
  unfold show_welcome_screen, st_title, st_columns, st_markdown, bind, emit, modify.
  simpl. rewrite <- !app_assoc. reflexivity.
Qed.

Section RunFacts.

Variable guess_type : string -> option string * option string.
Variable os_open : filesystem -> string -> option exn.
Variable markitdown : option llm -> filesystem -> string -> result string.

Abbreviation convert_files := (convert_files guess_type os_open markitdown).
Abbreviation outcome_of := (outcome_of guess_type os_open markitdown).
Abbreviation outcomes := (outcomes guess_type os_open markitdown).
Abbreviation new_records := (new_records guess_type).
Abbreviation new_calls := (new_calls guess_type).
Abbreviation skips := (skips guess_type).
Abbreviation main := (main guess_type os_open markitdown).
Abbreviation main_script := (main_script guess_type os_open markitdown).

(** The world that [convert_files] leaves, field by field. *)
Lemma convert_files_eq key docs_dir converted_dir w :
  let fos := outcomes key (client_for key) docs_dir converted_dir
               (uploaded_files (session w)) (fs w) in
  let new := new_records docs_dir converted_dir fos in
  convert_files key docs_dir converted_dir w
  = (Ok tt,
     mkWorld (disk_after_all docs_dir converted_dir fos (fs w))
       (set_combined_markdown (Py.join "
" (blocks new))
          (set_converted_files (converted_files (session w) ++ new) (session w)))
       (page w ++ [Progress_placeholder; Empty_placeholder] ++ new_notices fos)
       None None
       (calls w ++ client_calls key ++ new_calls docs_dir (client_for key) fos)).
Proof.
  intros fos new.
  destruct (convert_files_spec guess_type os_open markitdown key docs_dir converted_dir w)
    as (w' & -> & Hsess & Hpage & Hcalls & Hfs & Hpb & Hst).
  f_equal. apply world_eq; assumption.
Qed.

Lemma outcomes_length key client docs_dir converted_dir files disk :
  length (outcomes key client docs_dir converted_dir files disk) = length files.
Proof.
  revert disk. induction files as [|f files IH]; intros disk; [reflexivity|].
  cbn [outcomes length]. now rewrite IH.
Qed.

Lemma outcomes_files key client docs_dir converted_dir files disk :
  map fst (outcomes key client docs_dir converted_dir files disk) = files.
Proof.
  revert disk. induction files as [|f files IH]; intros disk; [reflexivity|].
  cbn [outcomes map fst]. now rewrite IH.
Qed.

(** With a credential no file is skipped. *)
Lemma outcomes_not_skipped key client docs_dir converted_dir files disk :
  key <> EmptyString ->
  Forall (fun fo => fo.2 <> Skipped) (outcomes key client docs_dir converted_dir files disk).
Proof.
  intros Hkey. revert disk. induction files as [|f files IH]; intros disk; [constructor|].
  cbn [outcomes]. constructor; [|apply IH]. simpl. unfold outcome_of, skips.
  destruct (String.eqb_spec key EmptyString) as [?|_]; [contradiction|].
  rewrite andb_false_r.
  destruct (os_open disk _); [discriminate|].
  destruct (markitdown _ _ _); [|discriminate].
  destruct (os_open _ _); discriminate.
Qed.


Abbreviation save_uploaded_file := (save_uploaded_file os_open).
Abbreviation process_file := (process_file guess_type os_open markitdown).


(** X3. A conversion that fails leaves the saved upload behind.  When the
    upload has been saved and then the conversion library raises, or the
    write of the markdown output is refused, the loop iteration shows the
    error as an error of conversion, records nothing and returns the combined
    content as it was; the converter has been built and called once; and the
    copy of the upload stays on the disk: nothing is rolled back.  After a
    library failure the disk is exactly the one with the saved upload; after
    a refused write every path but that of the output is as on that disk. *)
Theorem failed_conversion_keeps_the_saved_upload :
  forall key client docs_dir converted_dir total combined_content idx X w e,
    let path := pathlib.str (docs_dir // name X) in
    let saved := write_file path (getbuffer X) (fs w) in
    let cfg := converter_config guess_type (docs_dir // name X) client in
    let output := pathlib.str (output_path_of (docs_dir // name X) converted_dir) in
    skips key X = false ->
    os_open (fs w) path = None ->
    (markitdown cfg saved path = Raise e
     \/ exists c, markitdown cfg saved path = Ok c /\ os_open saved output = Some e) ->
    exists w',
      process_file key client docs_dir converted_dir total combined_content idx X w
      = (Ok combined_content, w')
      /\ page w' = page w ++ [Error ("Error converting file: " +:+ exn_msg e)]
      /\ session w' = session w
      /\ calls w' = calls w ++ [MarkItDown_init cfg; MarkItDown_convert cfg path]
      /\ fs_dirs (fs w') = fs_dirs (fs w)
      /\ (forall q, q <> output -> fs_files (fs w') !! q = fs_files saved !! q)
      /\ (markitdown cfg saved path = Raise e -> fs w' = saved).
Proof.
  intros key client docs_dir converted_dir total cc idx X w e path saved cfg output
    Hskip Hopen Hfail.
  destruct (process_file_spec guess_type os_open markitdown key client docs_dir
              converted_dir total cc idx X w)
    as (w' & Hrun & _ & _ & Hsess & Hpage & Hcalls & Hfs).
  assert (Ho : outcome_of key client docs_dir converted_dir X (fs w) = Convert_failed e
               \/ outcome_of key client docs_dir converted_dir X (fs w) = Write_failed e).
  { unfold outcome_of. fold (skips key X). rewrite Hskip. fold path. rewrite Hopen.
    fold saved cfg output.
    destruct Hfail as [->|(c & -> & ->)]; auto. }
  exists w'.
  destruct Ho as [Ho|Ho]; rewrite Ho in *; simpl in *;
    rewrite set_converted_files_id in Hsess; rewrite Hfs;
    repeat split; auto.
Qed.

(** X4. No file of a run goes unaccounted for: [convert_files] always
    returns, and what it puts on the page after the two placeholders are
    notices only (warnings and errors), one for each uploaded file that did
    not become a record, so that notices and new records together number
    the uploaded files; with a credential none of the notices is a warning;
    the list of uploaded files itself is left as it was. *)
Theorem every_file_is_accounted_for :
  forall key docs_dir converted_dir w,
    exists w' notices,
      convert_files key docs_dir converted_dir w = (Ok tt, w')
      /\ page w' = page w ++ [Progress_placeholder; Empty_placeholder] ++ notices
      /\ Forall (fun e => is_notice e = true) notices
      /\ (length notices + length (converted_files (session w'))
          = length (converted_files (session w)) + length (uploaded_files (session w)))%nat
      /\ (key <> EmptyString -> Forall (fun e => is_error e = true) notices)
      /\ uploaded_files (session w') = uploaded_files (session w).
Proof.
  intros key docs_dir converted_dir w. rewrite convert_files_eq.
  eexists _, _. split; [reflexivity|]. simpl. split; [reflexivity|].
  set (fos := outcomes _ _ _ _ _ _).
  assert (Hlen : length fos = length (uploaded_files (session w))) by apply outcomes_length.
  assert (Hskip : key <> EmptyString -> Forall (fun fo => fo.2 <> Skipped) fos)
    by (intros Hkey; now apply outcomes_not_skipped).
  clearbody fos. rewrite <- Hlen, length_app. clear Hlen.
  unfold new_notices, new_records.
  split; [|split; [|split; [|reflexivity]]].
  - induction fos as [|[f o] fos IH]; simpl; [constructor|].
    apply Forall_app. split; [|apply IH; intros Hk; specialize (Hskip Hk); now inversion Hskip].
    destruct o; repeat constructor.
  - clear Hskip. induction fos as [|[f o] fos IH]; simpl; [lia|].
    rewrite !length_app. destruct o; simpl; lia.
  - intros Hkey. specialize (Hskip Hkey). clear Hkey.
    induction Hskip as [|[f o] fos Ho _ IH]; simpl; [constructor|].
    apply Forall_app. split; [|exact IH].
    destruct o; repeat constructor. now simpl in Ho.
Qed.

(** X5. The conversion library is used once per upload at most.  A run
    builds the AI client exactly once when a credential is given, before any
    file is processed and whether or not an image is uploaded, and never
    otherwise; after that the calls come in pairs, a converter built and then
    called once, each on the saved path of an uploaded file, in upload
    order, with no client or with the client of this run; and there are at
    least as many such pairs as new records. *)
Theorem converter_is_called_once_per_saved_upload :
  forall key docs_dir converted_dir w,
    exists w' attempts,
      convert_files key docs_dir converted_dir w = (Ok tt, w')
      /\ calls w'
         = calls w ++ (if String.eqb key EmptyString then [] else [OpenAI_init key])
           ++ flat_map attempt_calls attempts
      /\ map snd attempts
         `sublist_of` map (fun f => pathlib.str (docs_dir // name f))
                        (uploaded_files (session w))
      /\ Forall (fun a => a.1 = None \/ a.1 = Some (mkLlm (mkOpenAI key) "gpt-4o")) attempts
      /\ (length (converted_files (session w'))
          <= length (converted_files (session w)) + length attempts)%nat.
Proof.
  intros key docs_dir converted_dir w. rewrite convert_files_eq.
  set (fos := outcomes _ _ _ _ _ _).
  set (attempt := fun fo : UploadedFile * outcome =>
         match fo.2 with
         | Skipped | Save_failed _ => []
         | _ => [(converter_config guess_type (docs_dir // name fo.1) (client_for key),
                  pathlib.str (docs_dir // name fo.1))]
         end).
  exists (mkWorld (disk_after_all docs_dir converted_dir fos (fs w))
            (set_combined_markdown (Py.join "
" (blocks (new_records docs_dir converted_dir fos)))
               (set_converted_files
                  (converted_files (session w) ++ new_records docs_dir converted_dir fos)
                  (session w)))
            (page w ++ [Progress_placeholder; Empty_placeholder] ++ new_notices fos)
            None None
            (calls w ++ client_calls key ++ new_calls docs_dir (client_for key) fos)),
         (flat_map attempt fos).
  split; [reflexivity|]. simpl.
  assert (Hfiles : map fst fos = uploaded_files (session w)) by apply outcomes_files.
  clearbody fos. rewrite <- Hfiles. clear Hfiles.
  split; [|split; [|split]].
  - f_equal. unfold client_calls. destruct (String.eqb key EmptyString); simpl; f_equal.
    all: unfold new_calls; induction fos as [|[f o] fos IH]; simpl; [reflexivity|];
      rewrite flat_map_app, <- IH; destruct o; reflexivity.
  - induction fos as [|[f o] fos IH]; simpl; [constructor|].
    rewrite map_app. destruct o; simpl;
      first [now apply sublist_cons | now apply sublist_skip].
  - induction fos as [|[f o] fos IH]; simpl; [constructor|].
    apply Forall_app. split; [|exact IH].
    assert (Hcfg : converter_config guess_type (docs_dir // name f) (client_for key) = None
                   \/ converter_config guess_type (docs_dir // name f) (client_for key)
                      = Some (mkLlm (mkOpenAI key) "gpt-4o")).
    { unfold converter_config, client_for.
      destruct (truthy (is_image_file guess_type (pathlib.str (docs_dir // name f)))),
        (negb (String.eqb key EmptyString)); auto. }
    destruct o; subst attempt; simpl; repeat first [exact Hcfg | constructor].
  - rewrite length_app. apply Nat.add_le_mono_l.
    unfold new_records. induction fos as [|[f o] fos IH]; simpl; [lia|].
    rewrite !length_app. destruct o; simpl; lia.
Qed.

(** *** Runs of the script, by the state they start from *)

Lemma setup_directories_keeps w :
  exists r disk,
    setup_directories w = (r, set_fs disk w)
    /\ fs_files disk = fs_files (fs w)
    /\ fs_dirs (fs w) ⊆ fs_dirs disk
    /\ fs_dirs disk ⊆ {["converted"]} ∪ ({["documents"]} ∪ fs_dirs (fs w)).
Proof.
  destruct w as [[dirs files] s p pb sc c].
  unfold setup_directories, for_each, os_makedirs, bind, gets, modify, ret, raise. simpl.
  destruct (bool_decide ("documents" ∈ dirs)); simpl.
  - destruct (bool_decide ("converted" ∈ dirs)); simpl.
    + eexists _, (mkFs dirs files). split; [reflexivity|]. simpl. set_solver.
    + destruct (bool_decide (is_Some (files !! "converted"))); simpl.
      * eexists _, (mkFs dirs files). split; [reflexivity|]. simpl. set_solver.
      * eexists _, (mkFs _ files). split; [reflexivity|]. simpl. set_solver.
  - destruct (bool_decide (is_Some (files !! "documents"))); simpl.
    { eexists _, (mkFs dirs files). split; [reflexivity|]. simpl. set_solver. }
    destruct (bool_decide ("converted" ∈ {["documents"]} ∪ dirs)); simpl.
    + eexists _, (mkFs _ files). split; [reflexivity|]. simpl. set_solver.
    + destruct (bool_decide (is_Some (files !! "converted"))); simpl.
      * eexists _, (mkFs _ files). split; [reflexivity|]. simpl. set_solver.
      * eexists _, (mkFs _ files). split; [reflexivity|]. simpl. set_solver.
Qed.

(** A regular file in the way makes [setup_directories] raise. *)
Lemma setup_directories_blocked w :
  (("documents" ∉ fs_dirs (fs w)) /\ is_Some (fs_files (fs w) !! "documents"))
  \/ (("converted" ∉ fs_dirs (fs w)) /\ is_Some (fs_files (fs w) !! "converted")) ->
  exists e disk,
    setup_directories w = (Raise e, set_fs disk w)
    /\ exn_class e = "FileExistsError"
    /\ fs_files disk = fs_files (fs w).
Proof.
  intros Hblocked.
  destruct (setup_directories_spec w) as (r & disk & Hrun & Hfiles & Hr).
  destruct r as [dirs|e].
  - exfalso. destruct Hr as (_ & _ & Hdocs & Hconv).
    destruct Hblocked as [[Hn [x Hx]]|[Hn [x Hx]]].
    + destruct Hdocs; [contradiction|congruence].
    + destruct Hconv; [contradiction|congruence].
  - destruct Hr as [Hclass _]. now exists e, disk.
Qed.

(** The run of [main] once the directories are in place. *)
Lemma main_eq inp disk stored :
  ("documents" ∈ fs_dirs disk \/ fs_files disk !! "documents" = None) ->
  ("converted" ∈ fs_dirs disk \/ fs_files disk !! "converted" = None) ->
  let s0 := initialize_session_state stored in
  let w1 := mkWorld (with_directories disk) (sidebar_session inp s0)
              ([Page_config "wide" "MarkItDown Converter"]
               ++ sidebar_elements guess_type inp (dark_mode s0)) None None [] in
  let w2 := set_page (page w1 ++ [Title "🔄 Converting Documents"]) w1 in
  main inp disk stored
  = if negb (conversion_started (sidebar_session inp s0)) then show_welcome_screen w1
    else if bool_decide (converted_files (sidebar_session inp s0) = [])
         then (convert_files (in_api_key inp)
                 (pathlib.parse "documents") (pathlib.parse "converted") ;;
               show_results guess_type inp (pathlib.parse "documents")) w2
         else (Ok tt, w2).
Proof.
  intros Hdocs Hconv s0 w1 w2. unfold main. fold s0.
  set (w := mkWorld disk s0 [] None None []).
  pose proof (main_script_eq guess_type os_open markitdown inp w) as Hmain.
  rewrite setup_directories_ok in Hmain by assumption.
  cbv zeta in Hmain. cbn [fst snd] in Hmain. rewrite Hmain. reflexivity.
Qed.

(** X6. A regular file where a directory should be stops the script at
    once: when [documents] or [converted] exists as a file and not as a
    directory, [os.makedirs] raises [FileExistsError], nothing catches it,
    and the run ends with the page configuration alone on the page: no
    sidebar is rendered, the session state is the one the run started with,
    the libraries are not used and no file is touched.  When it is
    [converted] that is in the way, [documents] has been created by then and
    stays. *)
Theorem setup_failure_aborts_the_run :
  (forall inp disk stored,
     (("documents" ∉ fs_dirs disk) /\ is_Some (fs_files disk !! "documents"))
     \/ (("converted" ∉ fs_dirs disk) /\ is_Some (fs_files disk !! "converted")) ->
     exists e w',
       main inp disk stored = (Raise e, w')
       /\ exn_class e = "FileExistsError"
       /\ page w' = [Page_config "wide" "MarkItDown Converter"]
       /\ session w' = initialize_session_state stored
       /\ calls w' = []
       /\ fs_files (fs w') = fs_files disk)
  /\ (forall inp disk stored,
        "documents" ∉ fs_dirs disk ->
        fs_files disk !! "documents" = None ->
        "converted" ∉ fs_dirs disk ->
        is_Some (fs_files disk !! "converted") ->
        exists e,
          main inp disk stored
          = (Raise e,
             mkWorld (mkFs ({["documents"]} ∪ fs_dirs disk) (fs_files disk))
               (initialize_session_state stored)
               [Page_config "wide" "MarkItDown Converter"] None None [])
          /\ exn_class e = "FileExistsError").
Proof.
  split.
  - intros inp disk stored Hblocked. unfold main.
    set (w := mkWorld disk (initialize_session_state stored) [] None None []).
    pose proof (main_script_eq guess_type os_open markitdown inp w) as Hmain.
    destruct (setup_directories_blocked
                (set_page (page w ++ [Page_config "wide" "MarkItDown Converter"]) w) Hblocked)
      as (e & disk' & Hsetup & Hclass & Hfiles).
    rewrite Hsetup in Hmain. rewrite Hmain. exists e. eexists. split; [reflexivity|].
    simpl. auto.
  - intros inp disk stored Hd Hdf Hc Hcf. unfold main.
    set (w := mkWorld disk (initialize_session_state stored) [] None None []).
    pose proof (main_script_eq guess_type os_open markitdown inp w) as Hmain.
    assert (Hsetup : setup_directories
                       (set_page (page w ++ [Page_config "wide" "MarkItDown Converter"]) w)
                     = (Raise (mkExn "FileExistsError" "converted"),
                        mkWorld (mkFs ({["documents"]} ∪ fs_dirs disk) (fs_files disk))
                          (initialize_session_state stored)
                          [Page_config "wide" "MarkItDown Converter"] None None [])).
    { subst w. destruct disk as [dirs files]. simpl in *.
      unfold setup_directories, for_each, os_makedirs, bind, gets, modify, ret, raise. simpl.
      rewrite (bool_decide_eq_false_2 _ Hd).
      rewrite bool_decide_eq_false_2 by (rewrite Hdf; now intros [x Hx]).
      simpl. rewrite bool_decide_eq_false_2 by set_solver.
      rewrite (bool_decide_eq_true_2 _ Hcf). reflexivity. }
    rewrite Hsetup in Hmain. eexists. split; [exact Hmain|reflexivity].
Qed.

(** X7. Until a conversion has been started the script shows the welcome
    screen and does nothing else: on a run whose session has not started a
    conversion (the first run of a session is one) and in which the convert
    button is not pressed, [main] returns normally, the page is the page
    configuration, the sidebar and the four elements of the welcome screen,
    the libraries are not used, no file is written (the two directories are
    created), and the session changes by what the sidebar stores only. *)
Theorem welcome_screen_until_conversion_starts :
  forall inp disk stored,
    let s0 := initialize_session_state stored in
    ("documents" ∈ fs_dirs disk \/ fs_files disk !! "documents" = None) ->
    ("converted" ∈ fs_dirs disk \/ fs_files disk !! "converted" = None) ->
    (forall s, stored = Some s -> conversion_started s = false) ->
    in_convert inp = false ->
    main inp disk stored
    = (Ok tt,
       mkWorld (with_directories disk) (sidebar_session inp s0)
         ([Page_config "wide" "MarkItDown Converter"]
          ++ sidebar_elements guess_type inp (dark_mode s0)
          ++ [Title "🎯 Document to Markdown Converter"; Columns 2;
              Markdown welcome_text; Markdown features_text])
         None None [])
    /\ conversion_started (sidebar_session inp s0) = false
    /\ converted_files (sidebar_session inp s0) = converted_files s0
    /\ combined_markdown (sidebar_session inp s0) = combined_markdown s0.
Proof.
  intros inp disk stored s0 Hdocs Hconv Hstored Hclick.
  assert (Hs0 : conversion_started s0 = false).
  { subst s0. destruct stored as [s|]; [now apply Hstored|reflexivity]. }
  assert (Hside : conversion_started (sidebar_session inp s0) = false
                  /\ converted_files (sidebar_session inp s0) = converted_files s0
                  /\ combined_markdown (sidebar_session inp s0) = combined_markdown s0).
  { unfold sidebar_session. rewrite Hclick. now destruct (in_files inp). }
  split; [|exact Hside].
  rewrite main_eq by assumption. cbv zeta. fold s0.
  destruct Hside as [-> _]. cbn [negb]. rewrite show_welcome_screen_eq.
  unfold set_page, welcome_elements. cbn [fs session page progress_bar status_container calls].
  now rewrite <- !app_assoc.
Qed.

(** X8. Results are shown by the run that converts and by no later one: on
    a run that finds a started conversion and records in the session, and in
    which the convert button is not pressed (a run caused by a download or by
    the theme toggle, say), [main] returns normally with the sidebar and the
    title on the page and nothing below: no success notice, no record, no
    download button.  The records and the combined buffer stay in the
    session; no file is converted or written. *)
Theorem results_are_not_shown_again :
  forall inp disk s,
    ("documents" ∈ fs_dirs disk \/ fs_files disk !! "documents" = None) ->
    ("converted" ∈ fs_dirs disk \/ fs_files disk !! "converted" = None) ->
    conversion_started s = true ->
    converted_files s <> [] ->
    in_convert inp = false ->
    main inp disk (Some s)
    = (Ok tt,
       mkWorld (with_directories disk) (sidebar_session inp s)
         ([Page_config "wide" "MarkItDown Converter"]
          ++ sidebar_elements guess_type inp (dark_mode s)
          ++ [Title "🔄 Converting Documents"])
         None None [])
    /\ converted_files (sidebar_session inp s) = converted_files s
    /\ combined_markdown (sidebar_session inp s) = combined_markdown s
    /\ List.filter is_download (page (main inp disk (Some s)).2) = [].
Proof.
  intros inp disk s Hdocs Hconv Hstarted Hrecords Hclick.
  assert (Hside : conversion_started (sidebar_session inp s) = true
                  /\ converted_files (sidebar_session inp s) = converted_files s
                  /\ combined_markdown (sidebar_session inp s) = combined_markdown s).
  { unfold sidebar_session. rewrite Hclick. now destruct (in_files inp). }
  destruct Hside as (Hs1 & Hs2 & Hs3).
  assert (Hmain : main inp disk (Some s)
                  = (Ok tt,
                     mkWorld (with_directories disk) (sidebar_session inp s)
                       ([Page_config "wide" "MarkItDown Converter"]
                        ++ sidebar_elements guess_type inp (dark_mode s)
                        ++ [Title "🔄 Converting Documents"])
                       None None [])).
  { rewrite main_eq by assumption. cbv zeta. cbn [initialize_session_state].
    rewrite Hs1, Hs2. cbn [negb]. rewrite bool_decide_eq_false_2 by exact Hrecords.
    unfold set_page. cbn [fs session page progress_bar status_container calls].
    now rewrite <- !app_assoc. }
  split; [exact Hmain|]. split; [exact Hs2|]. split; [exact Hs3|].
  rewrite Hmain. cbn [snd page]. apply widget_keys_no_download.
  rewrite !widget_keys_app, widget_keys_sidebar_elements. reflexivity.
Qed.

(** The conversion and the display do not read the combined buffer that
    they find. *)
Lemma convert_and_show_ignore_buffer inp key docs_dir converted_dir buffer w :
  (convert_files key docs_dir converted_dir ;;
   show_results guess_type inp docs_dir)
    (set_session (set_combined_markdown buffer (session w)) w)
  = (convert_files key docs_dir converted_dir ;;
     show_results guess_type inp docs_dir) w.
Proof.
  erewrite !bind_ok by apply convert_files_eq. reflexivity.
Qed.

(** X9. A conversion that left no record is repeated by every later run: on
    a session with a started conversion and no record (every file was
    skipped or failed, or none was there), a run in which the convert button
    is not pressed does exactly what a run in which it is pressed does: the
    files held in the session are saved and converted again. *)
Theorem rerun_without_records_converts_again :
  forall dark key files now disk s,
    conversion_started s = true ->
    converted_files s = [] ->
    main (mkInputs dark key files false now) disk (Some s)
    = main (mkInputs dark key files true now) disk (Some s).
Proof.
  intros dark key files now disk s Hstarted Hnil. unfold main.
  cbn [initialize_session_state].
  set (w := mkWorld disk s [] None None []).
  pose proof (main_script_eq guess_type os_open markitdown
                (mkInputs dark key files false now) w) as H0.
  pose proof (main_script_eq guess_type os_open markitdown
                (mkInputs dark key files true now) w) as H1.
  destruct (setup_directories_spec
              (set_page (page w ++ [Page_config "wide" "MarkItDown Converter"]) w))
    as (r & disk' & Hsetup & _ & _).
  rewrite Hsetup in H0, H1. destruct r as [dirs|e]; [|now rewrite H0, H1].
  cbv zeta in H0, H1. rewrite H0, H1. clear H0 H1 Hsetup.
  cbn [session set_fs set_page set_session w page fs progress_bar status_container calls].
  set (s' := sidebar_session (mkInputs dark key files false now) s).
  assert (Hs' : conversion_started s' = true /\ converted_files s' = []).
  { subst s'. unfold sidebar_session. cbn [in_convert in_files in_dark_mode].
    now destruct files. }
  assert (Hreset : sidebar_session (mkInputs dark key files true now) s
                   = set_combined_markdown EmptyString s').
  { subst s'. unfold sidebar_session. cbn [in_convert in_files in_dark_mode].
    destruct s. simpl in *. subst. now destruct files. }
  rewrite Hreset. destruct Hs' as [Hs1 Hs2].
  cbn [conversion_started converted_files set_combined_markdown].
  rewrite Hs1, Hs2. cbn [negb]. rewrite bool_decide_eq_true_2 by reflexivity.
  cbn [in_api_key].
  erewrite !bind_ok by apply convert_files_eq.
  reflexivity.
Qed.

(** *** What a run does to the disk *)

Lemma disk_after_dirs docs_dir converted_dir f o d :
  fs_dirs (disk_after docs_dir converted_dir f o d) = fs_dirs d.
Proof. now destruct o. Qed.

Lemma disk_after_keeps docs_dir converted_dir f o d p :
  is_Some (fs_files d !! p) ->
  is_Some (fs_files (disk_after docs_dir converted_dir f o d) !! p).
Proof.
  intros H. destruct o; simpl; rewrite ?lookup_insert_is_Some'; auto.
Qed.

Lemma disk_after_footprint docs_dir converted_dir f o d p :
  fs_files (disk_after docs_dir converted_dir f o d) !! p <> fs_files d !! p ->
  p = pathlib.str (docs_dir // name f)
  \/ p = pathlib.str (output_path_of (docs_dir // name f) converted_dir).
Proof.
  destruct (decide (p = pathlib.str (docs_dir // name f))) as [|Hsaved]; [now left|].
  destruct (decide (p = pathlib.str (output_path_of (docs_dir // name f) converted_dir)))
    as [|Hout]; [now right|].
  intros H. exfalso. apply H.
  destruct o; simpl; rewrite ?lookup_insert_ne by congruence; reflexivity.
Qed.

Lemma disk_after_all_spec docs_dir converted_dir fos :
  forall d,
    fs_dirs (disk_after_all docs_dir converted_dir fos d) = fs_dirs d
    /\ (forall p, is_Some (fs_files d !! p) ->
          is_Some (fs_files (disk_after_all docs_dir converted_dir fos d) !! p))
    /\ (forall p,
          fs_files (disk_after_all docs_dir converted_dir fos d) !! p <> fs_files d !! p ->
          footprint docs_dir converted_dir (map fst fos) p).
Proof.
  unfold disk_after_all.
  induction fos as [|[f o] fos IH]; intros d; simpl.
  - repeat split; auto. intros p H. now contradiction H.
  - destruct (IH (disk_after docs_dir converted_dir f o d)) as (Hdirs & Hkeep & Hfoot).
    split; [now rewrite Hdirs, disk_after_dirs|]. split.
    + intros p Hp. now apply Hkeep, disk_after_keeps.
    + intros p Hp.
      destruct (decide (fs_files (disk_after docs_dir converted_dir f o d) !! p
                        = fs_files d !! p)) as [Heq|Hne].
      * rewrite <- Heq in Hp. destruct (Hfoot p Hp) as (g & Hg & Hpath).
        exists g. split; [now right|exact Hpath].
      * exists f. split; [now left|]. now apply disk_after_footprint in Hne.
Qed.

(** X10. The script only ever adds to the disk.  Whatever the inputs and
    however the run ends, every directory and every file that was there
    before the run is there after it, the only directories that can be new
    are [documents] and [converted], and a path whose content has changed is
    the saved copy or the markdown output of one of the uploaded files held
    in the session: nothing is deleted and nothing else is written. *)
Theorem script_only_adds_to_the_disk :
  forall inp disk stored,
    let final := (main inp disk stored).2 in
    let files := uploaded_files (sidebar_session inp (initialize_session_state stored)) in
    fs_dirs disk ⊆ fs_dirs (fs final)
    /\ fs_dirs (fs final) ⊆ {["converted"]} ∪ ({["documents"]} ∪ fs_dirs disk)
    /\ (forall p, is_Some (fs_files disk !! p) -> is_Some (fs_files (fs final) !! p))
    /\ (forall p,
          fs_files (fs final) !! p <> fs_files disk !! p ->
          footprint (pathlib.parse "documents") (pathlib.parse "converted") files p).
Proof.
  intros inp disk stored final files. subst final. unfold main.
  set (s0 := initialize_session_state stored) in *.
  set (w := mkWorld disk s0 [] None None []).
  pose proof (main_script_eq guess_type os_open markitdown inp w) as Hmain.
  destruct (setup_directories_keeps
              (set_page (page w ++ [Page_config "wide" "MarkItDown Converter"]) w))
    as (r & disk' & Hsetup & Hfiles & Hsub1 & Hsub2).
  destruct (setup_directories_spec
              (set_page (page w ++ [Page_config "wide" "MarkItDown Converter"]) w))
    as (r' & disk'' & Hsetup' & _ & Hr).
  rewrite Hsetup in Hsetup'. injection Hsetup' as <- _.
  change (fs_files disk' = fs_files disk) in Hfiles.
  change (fs_dirs disk ⊆ fs_dirs disk') in Hsub1.
  change (fs_dirs disk' ⊆ {["converted"]} ∪ ({["documents"]} ∪ fs_dirs disk)) in Hsub2.
  assert (Hbase : forall v : world,
            fs v = disk' ->
            fs_dirs disk ⊆ fs_dirs (fs v)
            /\ fs_dirs (fs v) ⊆ {["converted"]} ∪ ({["documents"]} ∪ fs_dirs disk)
            /\ (forall p, is_Some (fs_files disk !! p) -> is_Some (fs_files (fs v) !! p))
            /\ (forall p,
                  fs_files (fs v) !! p <> fs_files disk !! p ->
                  footprint (pathlib.parse "documents") (pathlib.parse "converted") files p)).
  { intros v Hv. rewrite Hv, Hfiles. repeat split; auto. intros p H. now contradiction H. }
  rewrite Hsetup in Hmain. destruct r as [dirs|e].
  2:{ rewrite Hmain. now apply Hbase. }
  destruct Hr as (-> & _). cbv zeta in Hmain. cbn [fst snd] in Hmain. rewrite Hmain. clear Hmain.
  set (w1 := set_session _ _).
  destruct (negb (conversion_started (session w1))).
  { rewrite show_welcome_screen_eq. now apply Hbase. }
  destruct (bool_decide (converted_files (session w1) = [])); [|now apply Hbase].
  erewrite bind_ok by apply convert_files_eq.
  match goal with |- context [show_results _ _ _ ?v] => set (w' := v) end.
  destruct (page_only_show_results guess_type inp (pathlib.parse "documents") w') as [extra ->].
  cbn [fs set_page w'].
  match goal with |- context [disk_after_all _ _ ?l ?d] =>
    destruct (disk_after_all_spec (pathlib.parse "documents") (pathlib.parse "converted") l d)
      as (Hdirs & Hkeep & Hfoot);
    assert (Hl : map fst l = files) by apply outcomes_files
  end.
  rewrite Hl in Hfoot. subst w1. cbn [fs set_page set_fs set_session] in *.
  rewrite Hdirs. split; [exact Hsub1|]. split; [exact Hsub2|]. split.
  - intros p Hp. apply Hkeep. now rewrite Hfiles.
  - intros p Hp. apply Hfoot. now rewrite Hfiles.
Qed.

(** *** The display of the results *)









(** [show_results] up to the display loop. *)
Lemma show_results_eq inp docs_dir w :
  widget_keys (page w) = [] ->
  show_results guess_type inp docs_dir w
  = for_each (converted_files (session w)) (display_converted_file guess_type docs_dir)
      (set_page (page w ++ results_header inp (session w)) w).
Proof.
  intros Hkeys. unfold show_results, st_success, st_columns, st_subheader,
    st_download_button, results_header, combined_download.
  destruct w as [disk s p pb sc c]. simpl in *.
  unfold bind at 1. unfold emit at 1, modify at 1.
  unfold bind at 1. unfold emit at 1, modify at 1.
  unfold bind at 1. unfold gets at 1.
  unfold bind at 1. unfold bind at 1. unfold gets at 1. cbn [page set_page session].
  rewrite !widget_keys_app, Hkeys. cbn [widget_keys omap widget_key app].
  rewrite bool_decide_eq_false_2 by (intros H; inversion H).
  unfold emit at 1, modify at 1. unfold bind at 1. unfold emit at 1, modify at 1.
  unfold bind at 1. unfold gets at 1. cbn [page set_page session].
  unfold set_page. cbn [fs session page progress_bar status_container calls].
  now rewrite <- !app_assoc.
Qed.



(** X12. A run started by the convert button always announces completion:
    whatever happened to the files, the page holds the notice "Conversion
    Complete!" and, right after it, the download of the combined buffer
    under the key [download_all], the first keyed widget of the page.  When
    no file was converted the run still returns normally and the download it
    offers is the empty text. *)
Theorem completion_is_always_announced :
  forall inp disk stored,
    let final := (main inp disk stored).2 in
    ("documents" ∈ fs_dirs disk \/ fs_files disk !! "documents" = None) ->
    ("converted" ∈ fs_dirs disk \/ fs_files disk !! "converted" = None) ->
    in_convert inp = true ->
    (exists before after,
       page final
       = before
         ++ [Success "✅ Conversion Complete!"; Columns 2;
             combined_download inp (session final); Subheader "📑 Converted Files"]
         ++ after
       /\ widget_keys before = [])
    /\ (converted_files (session final) = [] ->
        (main inp disk stored).1 = Ok tt
        /\ combined_markdown (session final) = EmptyString
        /\ List.filter is_download (page final)
           = [Download_button "📥 Download All as Single File" EmptyString
                ("combined_markdown_" +:+ strftime (in_now inp) +:+ ".md")
                "text/markdown" "download_all"]).
Proof.
  intros inp disk stored final Hdocs Hconv Hclick. subst final.
  rewrite main_eq by assumption. cbv zeta.
  destruct (sidebar_session_convert inp (initialize_session_state stored) Hclick)
    as (Hnil & _ & Hstarted).
  rewrite Hstarted, Hnil. cbn [negb]. rewrite bool_decide_eq_true_2 by reflexivity.
  erewrite bind_ok by apply convert_files_eq.
  match goal with |- context [show_results _ _ _ ?v] => set (w' := v) end.
  assert (Hkeys : widget_keys (page w') = []).
  { subst w'. cbn [page set_page].
    rewrite !widget_keys_app, widget_keys_new_notices, widget_keys_sidebar_elements.
    reflexivity. }
  rewrite (show_results_eq inp _ w' Hkeys).
  set (v := set_page (page w' ++ results_header inp (session w')) w').
  destruct (page_only_for_each (converted_files (session w'))
              (display_converted_file guess_type (pathlib.parse "documents"))
              (page_only_display_converted_file guess_type (pathlib.parse "documents")) v)
    as [extra Hextra].
  split.
  - rewrite Hextra. exists (page w'), extra. split; [|exact Hkeys].
    subst v. cbn [page set_page session]. now rewrite <- app_assoc.
  - assert (Hsess : session (for_each (converted_files (session w'))
                               (display_converted_file guess_type (pathlib.parse "documents"))
                               v).2 = session w') by now rewrite Hextra.
    rewrite Hsess. clear Hextra Hsess. intros Hrecords. rewrite Hrecords.
    cbn [for_each]. unfold ret. cbn [fst snd]. subst v. cbn [page set_page].
    assert (Hbuf : combined_markdown (session w') = EmptyString).
    { subst w'. cbn [session combined_markdown set_combined_markdown converted_files
        set_converted_files] in *.
      apply app_eq_nil in Hrecords as [_ Hnew]. now rewrite Hnew. }
    split; [reflexivity|]. split; [exact Hbuf|].
    rewrite List.filter_app, (widget_keys_no_download _ Hkeys).
    unfold results_header, combined_download. rewrite Hbuf. reflexivity.
Qed.


(** *** The sidebar and the session *)

Lemma filter_is_info_map (g : UploadedFile -> string) (l : list UploadedFile) :
  List.filter is_info (map (fun f => Info (g f)) l) = map (fun f => Info (g f)) l.
Proof. induction l as [|x l IH]; [reflexivity|]. simpl. now rewrite IH. Qed.

Lemma filter_is_markdown_map (g : UploadedFile -> string) (l : list UploadedFile) :
  List.filter is_markdown (map (fun f => Info (g f)) l) = [].
Proof. induction l as [|x l IH]; [reflexivity|exact IH]. Qed.

(** X14. The sidebar renders and remembers, and does nothing else.
    [create_sidebar] always returns the credential as typed; it touches
    neither the disk nor the libraries; it lists the uploaded files, one
    info line each with icon and name, in upload order; the convert button
    is disabled exactly when no file is uploaded; the theme toggle is shown
    with the stored value, the stored value becomes the toggle's, and the
    dark style sheet is written exactly when the toggle is on; the uploaded
    files replace those held in the session only when there are some, so an
    emptied uploader leaves the earlier files in the session; and unless the
    convert button is pressed, the records, the combined buffer and the
    started flag stay as they were. *)
Theorem sidebar_renders_and_remembers :
  forall inp w,
    exists extra w',
      create_sidebar guess_type inp w = (Ok (in_api_key inp), w')
      /\ page w' = page w ++ extra
      /\ fs w' = fs w
      /\ calls w' = calls w
      /\ List.filter is_info extra
         = map (fun f => Info (get_file_icon guess_type (name f) +:+ " " +:+ name f))
             (in_files inp)
      /\ Button "🚀 Convert Files" (bool_decide (in_files inp = [])) ∈ extra
      /\ Toggle "🌙 Dark Mode" (dark_mode (session w)) ∈ extra
      /\ List.filter is_markdown extra
         = (if in_dark_mode inp then [Markdown dark_css] else []) ++ [Markdown help_text]
      /\ dark_mode (session w') = in_dark_mode inp
      /\ uploaded_files (session w')
         = (if bool_decide (in_files inp = []) then uploaded_files (session w)
            else in_files inp)
      /\ (in_convert inp = false ->
          converted_files (session w') = converted_files (session w)
          /\ combined_markdown (session w') = combined_markdown (session w)
          /\ conversion_started (session w') = conversion_started (session w)).
Proof.
  intros inp w. eexists _, _. split; [apply create_sidebar_spec|].
  cbn [page set_page set_session fs calls session].
  split; [reflexivity|]. split; [reflexivity|]. split; [reflexivity|].
  unfold sidebar_elements, sidebar_session.
  split; [|split; [|split; [|split; [|split; [|split]]]]].
  - rewrite !List.filter_app.
    destruct (in_dark_mode inp), (in_files inp) as [|f files]; cbn -[pretty];
      rewrite ?filter_is_info_map, ?app_nil_r; reflexivity.
  - do 4 (apply elem_of_app; right). right. left.
  - apply elem_of_app. left. right. left.
  - rewrite !List.filter_app.
    destruct (in_dark_mode inp), (in_files inp) as [|f files]; cbn -[pretty];
      rewrite ?filter_is_markdown_map; reflexivity.
  - destruct (in_convert inp), (in_files inp); reflexivity.
  - destruct (in_convert inp), (in_files inp); reflexivity.
  - intros ->. now destruct (in_files inp).
Qed.

(** The session that a run leaves, against the one it found. *)
Lemma main_session inp disk stored :
  let s0 := initialize_session_state stored in
  let sf := session (main inp disk stored).2 in
  show_welcome sf = show_welcome s0
  /\ needs_reset sf = needs_reset s0
  /\ conversion_status sf = conversion_status s0
  /\ (conversion_started s0 = true -> conversion_started sf = true)
  /\ (conversion_started sf = false ->
      conversion_started s0 = false
      /\ converted_files sf = converted_files s0
      /\ combined_markdown sf = combined_markdown s0).
Proof.
  intros s0 sf. subst sf.
  assert (Hside : let s1 := sidebar_session inp s0 in
            show_welcome s1 = show_welcome s0
            /\ needs_reset s1 = needs_reset s0
            /\ conversion_status s1 = conversion_status s0
            /\ (conversion_started s0 = true -> conversion_started s1 = true)
            /\ (conversion_started s1 = false ->
                conversion_started s0 = false
                /\ converted_files s1 = converted_files s0
                /\ combined_markdown s1 = combined_markdown s0)).
  { unfold sidebar_session. destruct (in_convert inp), (in_files inp); cbn; auto.
    all: repeat split; auto; discriminate. }
  cbv zeta in Hside. unfold main. fold s0.
  set (w := mkWorld disk s0 [] None None []).
  pose proof (main_script_eq guess_type os_open markitdown inp w) as Hmain.
  destruct (setup_directories_spec
              (set_page (page w ++ [Page_config "wide" "MarkItDown Converter"]) w))
    as (r & disk' & Hsetup & _ & _).
  rewrite Hsetup in Hmain. destruct r as [dirs|e].
  2:{ rewrite Hmain. cbn [snd session set_fs set_page w]. repeat split; auto. }
  cbv zeta in Hmain. rewrite Hmain. clear Hmain.
  set (w1 := set_session _ _). change (session w1) with (sidebar_session inp s0).
  destruct (conversion_started (sidebar_session inp s0)) eqn:Hstarted; cbn [negb].
  2:{ rewrite show_welcome_screen_eq. cbn [snd session set_page].
      change (session w1) with (sidebar_session inp s0). rewrite <- Hstarted in Hside at 2.
      rewrite Hstarted. rewrite Hstarted in Hside. exact Hside. }
  destruct Hside as (H1 & H2 & H3 & H4 & H5).
  destruct (bool_decide (converted_files (sidebar_session inp s0) = [])).
  - erewrite bind_ok by apply convert_files_eq.
    match goal with |- context [show_results _ _ _ ?v] => set (w' := v) end.
    destruct (page_only_show_results guess_type inp dirs.1 w') as [extra ->].
    subst w' w1 w.
    cbn [session set_page set_session set_fs show_welcome needs_reset conversion_status
      conversion_started set_combined_markdown set_converted_files].
    rewrite Hstarted. repeat split; auto; discriminate.
  - cbn [snd session set_page]. change (session w1) with (sidebar_session inp s0).
    rewrite Hstarted. repeat split; auto; discriminate.
Qed.

(** X15. What a session keeps for good.  (1) A run never takes back the
    start of a conversion: a session that has one started has it started
    after every later run; and a run never writes the keys [show_welcome],
    [needs_reset] and [conversion_status].  (2) In every session state that the script
    reaches, these three keys have the values that
    [initialize_session_state] gave them, and records or a combined buffer
    are held only once a conversion has started. *)
Theorem session_flags_are_stable :
  (forall inp disk stored,
     let s0 := initialize_session_state stored in
     let sf := session (main inp disk stored).2 in
     (conversion_started s0 = true -> conversion_started sf = true)
     /\ show_welcome sf = show_welcome s0
     /\ needs_reset sf = needs_reset s0
     /\ conversion_status sf = conversion_status s0)
  /\ (forall s,
        reachable guess_type os_open markitdown s ->
        show_welcome s = true
        /\ needs_reset s = false
        /\ conversion_status s = []
        /\ (conversion_started s = false ->
            converted_files s = [] /\ combined_markdown s = EmptyString)).
Proof.
  split.
  - intros inp disk stored s0 sf.
    destruct (main_session inp disk stored) as (H1 & H2 & H3 & H4 & _). auto.
  - induction 1 as [inp disk|inp disk s _ (IH1 & IH2 & IH3 & IH4)].
    + destruct (main_session inp disk None) as (H1 & H2 & H3 & _ & H5).
      cbv zeta in *. cbn [initialize_session_state show_welcome needs_reset
        conversion_status converted_files combined_markdown] in *.
      split; [exact H1|]. split; [exact H2|]. split; [exact H3|].
      intros Hs. now destruct (H5 Hs) as (_ & ? & ?).
    + destruct (main_session inp disk (Some s)) as (H1 & H2 & H3 & _ & H5).
      cbv zeta in *. cbn [initialize_session_state] in *.
      rewrite H1, H2, H3. split; [exact IH1|]. split; [exact IH2|]. split; [exact IH3|].
      intros Hs. destruct (H5 Hs) as (Hs0 & -> & ->). exact (IH4 Hs0).
Qed.

End RunFacts.

(** ** More on strings, paths and file names *)

Lemma string_length_app a b :
  String.length (a +:+ b) = (String.length a + String.length b)%nat.
Proof. induction a as [|c a IH]; simpl; [reflexivity|now rewrite IH]. Qed.

Lemma string_app_assoc a b c : (a +:+ b) +:+ c = a +:+ (b +:+ c).
Proof.
  induction a as [|x a IH]; [reflexivity|].
  change (String x ((a +:+ b) +:+ c) = String x (a +:+ (b +:+ c))). now f_equal.
Qed.

Lemma take_append a b n :
  Py.take (String.length a + n) (a +:+ b) = a +:+ Py.take n b.
Proof. induction a as [|c a IH]; simpl; [reflexivity|now rewrite IH]. Qed.

Lemma take_drop_string n s : Py.take n s +:+ Py.drop n s = s.
Proof.
  revert s. induction n as [|n IH]; intros [|a s]; try reflexivity.
  change (String a (Py.take n s +:+ Py.drop n s) = String a s). now rewrite IH.
Qed.

Lemma rfind_append_none c a b :
  Py.rfind c b = -1 -> Py.rfind c (a +:+ b) = Py.rfind c a.
Proof.
  intros Hb. induction a as [|x a IH]; simpl; [exact Hb|now rewrite IH].
Qed.

Lemma splitext_base_free p :
  free_of "/"%char p = true -> free_of "/"%char (posixpath.splitext p).1 = true.
Proof.
  intros Hfree. rewrite (splitext_no_slash p Hfree).
  destruct (_ && _); [now apply free_of_take|exact Hfree].
Qed.

(** Below a directory, [splitext] splits the file name as it would split it
    alone. *)
Lemma splitext_under_dir d n :
  free_of "/"%char n = true ->
  posixpath.splitext (d +:+ String "/" n)
  = (d +:+ String "/" (posixpath.splitext n).1, (posixpath.splitext n).2).
Proof.
  intros Hfree. rewrite (splitext_no_slash n Hfree). unfold posixpath.splitext.
  pose proof (rfind_bounds "."%char n) as Hb.
  pose proof (rfind_bounds "."%char d) as Hd.
  set (r := Py.rfind "."%char n) in *.
  set (len := Z.of_nat (String.length d)) in *.
  assert (Hsep : Py.rfind "/"%char (d +:+ String "/" n) = len).
  { rewrite rfind_append; cbn [Py.rfind]; rewrite (rfind_free_of _ _ Hfree); simpl; lia. }
  rewrite Hsep.
  destruct (Z.eq_dec r (-1)) as [Hr|Hr].
  - assert (Hdot : Py.rfind "."%char (d +:+ String "/" n) = Py.rfind "."%char d).
    { apply rfind_append_none. cbn [Py.rfind]. fold r. rewrite Hr. reflexivity. }
    rewrite Hdot, Hr.
    replace (len <? Py.rfind "."%char d) with false by (symmetry; apply Z.ltb_ge; lia).
    reflexivity.
  - assert (Hdot : Py.rfind "."%char (d +:+ String "/" n) = len + (r + 1)).
    { rewrite rfind_append; cbn [Py.rfind]; fold r;
        (destruct (0 <=? r) eqn:E; [|apply Z.leb_gt in E]); fold len; lia. }
    rewrite Hdot.
    replace (len <? len + (r + 1)) with true by (symmetry; apply Z.ltb_lt; lia).
    replace (-1 <? r) with true by (symmetry; apply Z.ltb_lt; lia).
    cbn [andb]. unfold Py.upto, Py.from.
    replace (Z.to_nat (len + 1)) with (String.length d + 1)%nat by lia.
    replace (Z.to_nat (len + (r + 1) - (len + 1))) with (Z.to_nat r) by lia.
    replace (Z.to_nat (len + (r + 1))) with (String.length d + S (Z.to_nat r))%nat by lia.
    rewrite !drop_append, take_append. cbn [Py.drop Py.take].
    destruct (posixpath.has_nondot (Py.take (Z.to_nat r) n)); reflexivity.
Qed.

Lemma first_delim_none s :
  free_of "/"%char s = true -> free_of ":"%char s = true -> urllib.first_delim s = None.
Proof.
  induction s as [|a s IH]; simpl; [reflexivity|].
  intros [Ha Hs]%andb_true_iff [Hb Hs']%andb_true_iff.
  apply negb_true_iff in Ha, Hb. rewrite Ha, Hb. simpl. now rewrite IH.
Qed.

Lemma first_delim_slash d rest :
  free_of ":"%char d = true ->
  exists i, urllib.first_delim (d +:+ String "/" rest) = Some (i, "/"%char).
Proof.
  induction d as [|a d IH]; simpl.
  - intros _. now exists 0%nat.
  - intros [Ha Hd]%andb_true_iff. apply negb_true_iff in Ha.
    destruct (Ascii.eqb_spec a "/"%char) as [->|Hn]; [now exists 0%nat|].
    rewrite Ha. simpl. destruct (IH Hd) as [i ->]. now exists (S i).
Qed.

Lemma splittype_under_dir d rest :
  free_of ":"%char d = true ->
  urllib._splittype (d +:+ String "/" rest) = (None, d +:+ String "/" rest).
Proof.
  intros H. unfold urllib._splittype.
  destruct (first_delim_slash d rest H) as [i ->]. now destruct i.
Qed.

Lemma splittype_plain n :
  free_of "/"%char n = true -> free_of ":"%char n = true ->
  urllib._splittype n = (None, n).
Proof. intros H1 H2. unfold urllib._splittype. now rewrite first_delim_none. Qed.

Lemma suffix_map_values_free k v :
  Py.lookup mimetypes.suffix_map k = Some v -> free_of "/"%char v = true.
Proof.
  intros H%suffix_map_values.
  repeat (apply elem_of_cons in H as [->|H]; [reflexivity|]). now apply elem_of_nil in H.
Qed.

(** [guess_type] reads a plain name below a directory as it reads the name
    alone. *)
Lemma guess_type_under_dir types_map d n :
  free_of "/"%char n = true -> free_of ":"%char n = true -> free_of ":"%char d = true ->
  mimetypes.guess_type types_map (d +:+ String "/" n) = mimetypes.guess_type types_map n.
Proof.
  intros Hs Hc Hd. unfold mimetypes.guess_type, mimetypes.guess_type_fuel.
  rewrite splittype_under_dir, splittype_plain by assumption.
  rewrite bool_decide_eq_false_2 by discriminate.
  rewrite splitext_under_dir by assumption.
  pose proof (splitext_base_free n Hs) as Hb.
  destruct (posixpath.splitext n) as [b e]. cbn [fst snd] in *.
  rewrite !(suffix_loop_once 1). cbn [mimetypes.suffix_loop].
  assert (Henc : forall b' e',
            free_of "/"%char b' = true ->
            (let '(encoding, base, ext) :=
               match Py.lookup mimetypes.encodings_map e' with
               | Some enc =>
                   let '(b0, e0) := posixpath.splitext (d +:+ String "/" b') in (Some enc, b0, e0)
               | None => (None, d +:+ String "/" b', e')
               end in
             (types_map (Py.lower ext), encoding))
            = (let '(encoding, base, ext) :=
                 match Py.lookup mimetypes.encodings_map e' with
                 | Some enc => let '(b0, e0) := posixpath.splitext b' in (Some enc, b0, e0)
                 | None => (None, b', e')
                 end in
               (types_map (Py.lower ext), encoding))).
  { intros b' e' Hb'. destruct (Py.lookup mimetypes.encodings_map e'); [|reflexivity].
    rewrite splitext_under_dir by exact Hb'. now destruct (posixpath.splitext b'). }
  destruct (Py.lookup mimetypes.suffix_map (Py.lower e)) as [repl|] eqn:Hk.
  - rewrite string_app_assoc.
    change (String "/" b +:+ repl) with (String "/" (b +:+ repl)).
    assert (Hfree : free_of "/"%char (b +:+ repl) = true).
    { rewrite free_of_append, Hb. exact (suffix_map_values_free _ _ Hk). }
    rewrite splitext_under_dir by exact Hfree.
    pose proof (splitext_base_free _ Hfree) as Hb2.
    destruct (posixpath.splitext (b +:+ repl)) as [b2 e2]. cbn [fst snd] in *.
    now apply Henc.
  - now apply Henc.
Qed.

(** The path of an upload with a plain name. *)
Lemma str_documents n :
  plain_name n ->
  pathlib.parse "documents" // n = pathlib.mkPath EmptyString ["documents"; n]
  /\ pathlib.str (pathlib.parse "documents" // n) = "documents" +:+ String "/" n.
Proof.
  intros (Hfree & Hne & Hdot).
  rewrite (truediv_component _ n Hfree Hne Hdot). split; reflexivity.
Qed.

(** *** Suffixes *)

Lemma endswith_iff x t : Py.endswith x t = true <-> exists b, x = b +:+ t.
Proof.
  unfold Py.endswith. split.
  - intros [_ Heq]%andb_true_iff. apply String.eqb_eq in Heq.
    exists (Py.take (String.length x - String.length t) x).
    pose proof (take_drop_string (String.length x - String.length t) x) as H.
    rewrite Heq in H. now symmetry.
  - intros [b ->]. rewrite string_length_app. apply andb_true_iff. split.
    + apply Nat.leb_le. lia.
    + replace (String.length b + String.length t - String.length t)%nat
        with (String.length b + 0)%nat by lia.
      rewrite drop_append. apply String.eqb_refl.
Qed.

Lemma append_inj_last a a' c c' :
  a +:+ String c EmptyString = a' +:+ String c' EmptyString -> c = c'.
Proof.
  revert a'. induction a as [|x a IH]; intros [|y a'] H.
  - now injection H.
  - change (String c EmptyString = String y (a' +:+ String c' EmptyString)) in H.
    injection H as _ H. destruct a'; discriminate.
  - change (String x (a +:+ String c EmptyString) = String c' EmptyString) in H.
    injection H as _ H. destruct a; discriminate.
  - change (String x (a +:+ String c EmptyString)
            = String y (a' +:+ String c' EmptyString)) in H.
    injection H as _ H. now apply (IH a').
Qed.

(** A name does not end with a suffix whose last character is another. *)
Lemma endswith_last x c t c' :
  c <> c' -> Py.endswith (x +:+ String c EmptyString) (t +:+ String c' EmptyString) = false.
Proof.
  intros Hne. destruct (Py.endswith _ _) eqn:E; [|reflexivity].
  apply endswith_iff in E as [b Hb]. rewrite <- string_app_assoc in Hb.
  now apply append_inj_last in Hb.
Qed.

(** A suffix no longer than the one appended is looked for in it. *)
Lemma endswith_append b s t :
  (String.length t <= String.length s)%nat ->
  Py.endswith (b +:+ s) t = Py.endswith s t.
Proof.
  intros Hlen. unfold Py.endswith. rewrite string_length_app.
  replace (String.length t <=? String.length b + String.length s)%nat with true
    by (symmetry; apply Nat.leb_le; lia).
  replace (String.length t <=? String.length s)%nat with true
    by (symmetry; now apply Nat.leb_le).
  replace (String.length b + String.length s - String.length t)%nat
    with (String.length b + (String.length s - String.length t))%nat by lia.
  now rewrite drop_append.
Qed.

(** X16. Where uploads with plain names are saved.  For a name that is a
    single path component, (1) the upload's path is the component itself
    below [documents]; (2) uploads with different names have different
    paths, so that no upload overwrites the saved copy of another; (3) when
    the operating system accepts the write, [save_uploaded_file] returns that
    path and the file there holds the upload's bytes. *)
Theorem plain_names_are_saved_under_documents :
  (forall n,
     plain_name n ->
     pathlib.parse "documents" // n = pathlib.mkPath EmptyString ["documents"; n]
     /\ pathlib.str (pathlib.parse "documents" // n) = "documents/" +:+ n)
  /\ (forall n1 n2,
        plain_name n1 -> plain_name n2 -> n1 <> n2 ->
        pathlib.str (pathlib.parse "documents" // n1)
        <> pathlib.str (pathlib.parse "documents" // n2))
  /\ (forall os_open f w,
        plain_name (name f) ->
        os_open (fs w) ("documents/" +:+ name f) = None ->
        exists w',
          save_uploaded_file os_open f (pathlib.parse "documents") w
          = (Ok (Some (pathlib.mkPath EmptyString ["documents"; name f])), w')
          /\ fs_files (fs w') !! ("documents/" +:+ name f) = Some (getbuffer f)
          /\ (forall q, q <> "documents/" +:+ name f ->
                fs_files (fs w') !! q = fs_files (fs w) !! q)).
Proof.
  split; [|split].
  - intros n Hn. exact (str_documents n Hn).
  - intros n1 n2 H1 H2 Hne.
    destruct (str_documents n1 H1) as [_ ->], (str_documents n2 H2) as [_ ->].
    intros [= H]. contradiction.
  - intros os_open f w Hn Hopen.
    destruct (str_documents (name f) Hn) as [Hpath Hstr].
    pose proof (save_uploaded_file_eq os_open f (pathlib.parse "documents") w) as Heq.
    cbv zeta in Heq. rewrite Hstr in Heq.
    change ("documents" +:+ String "/" (name f)) with ("documents/" +:+ name f) in Heq.
    rewrite Hopen, Hpath in Heq. eexists. split; [exact Heq|]. simpl. split.
    + apply lookup_insert_eq.
    + intros q Hq. now rewrite lookup_insert_ne by congruence.
Qed.

(** X17. An upload whose name is an absolute path is not saved below the
    upload directory: joining a directory with a name that begins with a
    slash gives the path that the name spells, whatever the directory, so
    [save_uploaded_file] writes at an absolute path and does the same
    whichever directory it is given. *)
Theorem absolute_names_leave_the_upload_directory :
  forall os_open f save_dir other_dir w,
    Py.startswith (name f) "/" = true ->
    save_dir // name f = pathlib.parse (name f)
    /\ Py.startswith (pathlib.str (save_dir // name f)) "/" = true
    /\ save_uploaded_file os_open f save_dir w = save_uploaded_file os_open f other_dir w.
Proof.
  intros os_open f save_dir other_dir w Habs.
  assert (Hjoin : forall d, d // name f = pathlib.parse (name f)
                            /\ Py.startswith (pathlib.root (pathlib.parse (name f))) "/" = true).
  { intros d. unfold pathlib.truediv, pathlib.parse, pathlib.splitroot.
    destruct (name f) as [|a rest]; [discriminate|].
    rewrite Habs. cbn [String.eqb].
    destruct (bool_decide _); cbn [pathlib.root String.eqb negb]; split; reflexivity. }
  destruct (Hjoin save_dir) as [Hsave Hroot]. split; [exact Hsave|]. split.
  - rewrite Hsave. unfold pathlib.str.
    destruct (pathlib.root (pathlib.parse (name f))) as [|a root]; [discriminate|].
    match goal with |- context [String a root +:+ ?x] =>
      change (String a root +:+ x) with (String a (root +:+ x)) end.
    cbn [String.eqb Py.startswith] in *.
    apply andb_true_iff in Hroot as [-> _]. now destruct (root +:+ _).
  - unfold save_uploaded_file. rewrite Hsave. now destruct (Hjoin other_dir) as [-> _].
Qed.

(** X18. A plain name is classified alike in the loop and in the converter.
    With the standard library's [guess_type], for a file name that is a
    single path component and holds no colon, the saved path
    [documents/name] gets the type and the encoding of the name itself; so
    [is_image_file] gives the same answer on the name, by which [main]
    decides to skip, and on the saved path, by which [convert_to_markdown]
    decides to pass the AI client: the converter gets the client exactly
    when the name is an image and a client exists. *)
Theorem name_and_saved_path_are_classified_alike :
  forall types_map n,
    let guess := mimetypes.guess_type types_map in
    plain_name n ->
    free_of ":"%char n = true ->
    guess (pathlib.str (pathlib.parse "documents" // n)) = guess n
    /\ is_image_file guess (pathlib.str (pathlib.parse "documents" // n))
       = is_image_file guess n
    /\ (forall client l,
          converter_config guess (pathlib.parse "documents" // n) client = Some l
          <-> truthy (is_image_file guess n) = true
              /\ exists c, client = Some c /\ l = mkLlm c "gpt-4o").
Proof.
  intros types_map n guess Hn Hcolon. subst guess.
  assert (Hguess : mimetypes.guess_type types_map
                     (pathlib.str (pathlib.parse "documents" // n))
                   = mimetypes.guess_type types_map n).
  { destruct (str_documents n Hn) as [_ ->]. destruct Hn as (Hfree & _).
    now apply guess_type_under_dir. }
  assert (Himg : is_image_file (mimetypes.guess_type types_map)
                   (pathlib.str (pathlib.parse "documents" // n))
                 = is_image_file (mimetypes.guess_type types_map) n).
  { unfold is_image_file. now rewrite Hguess. }
  split; [exact Hguess|]. split; [exact Himg|].
  intros client l. rewrite converter_config_Some, Himg. reflexivity.
Qed.

(** X19. The icon of a file.  A name classified as an image gets the
    picture icon whatever it ends with.  A name that is not gets the icon of
    the suffix it ends with: the page for [.pdf], the memo for [.doc] and
    [.docx], the chart for [.xls] and [.xlsx], the clipboard for [.txt];
    the suffixes are compared as written, so a name whose last character is
    none of f, c, x, s and t (an upper-case suffix, for one) gets the
    paperclip. *)
Theorem file_icon_by_kind :
  forall guess base,
    (forall filename,
       truthy (is_image_file guess filename) = true ->
       get_file_icon guess filename = "🖼️")
    /\ (forall suffix icon,
          (suffix, icon) ∈ [(".pdf", "📄"); (".doc", "📝"); (".docx", "📝");
                            (".xls", "📊"); (".xlsx", "📊"); (".txt", "📋")] ->
          truthy (is_image_file guess (base +:+ suffix)) = false ->
          get_file_icon guess (base +:+ suffix) = icon)
    /\ (forall c,
          c ∉ ["f"; "c"; "x"; "s"; "t"]%char ->
          truthy (is_image_file guess (base +:+ String c EmptyString)) = false ->
          get_file_icon guess (base +:+ String c EmptyString) = "📎").
Proof.
  intros guess base. split; [|split].
  - intros filename Himg. unfold get_file_icon. now rewrite Himg.
  - intros suffix icon Hin Himg. unfold get_file_icon, Py.endswith_any. rewrite Himg.
    cbn [existsb].
    assert (Hlong : forall s c t c' s' t',
              s' = s +:+ String c EmptyString ->
              t' = t +:+ String c' EmptyString ->
              c <> c' ->
              Py.endswith (base +:+ s') t' = false).
    { intros s c t c' s' t' -> -> Hne. rewrite <- string_app_assoc. now apply endswith_last. }
    repeat (apply elem_of_cons in Hin as [[= -> ->]|Hin]);
      [..|now apply elem_of_nil in Hin].
    + rewrite endswith_append by (simpl; lia). reflexivity.
    + rewrite !endswith_append by (simpl; lia). reflexivity.
    + rewrite !endswith_append by (simpl; lia). reflexivity.
    + rewrite (Hlong ".xl" "s"%char ".doc" "x"%char ".xls" ".docx" eq_refl eq_refl)
        by discriminate.
      rewrite !endswith_append by (simpl; lia). reflexivity.
    + rewrite !endswith_append by (simpl; lia). reflexivity.
    + rewrite (Hlong ".tx" "t"%char ".doc" "x"%char ".txt" ".docx" eq_refl eq_refl)
        by discriminate.
      rewrite (Hlong ".tx" "t"%char ".xls" "x"%char ".txt" ".xlsx" eq_refl eq_refl)
        by discriminate.
      rewrite !endswith_append by (simpl; lia). reflexivity.
  - intros c Hc Himg. unfold get_file_icon, Py.endswith_any. rewrite Himg.
    cbn [existsb].
    assert (Hlast : forall t c' t',
              t' = t +:+ String c' EmptyString ->
              c' ∈ ["f"; "c"; "x"; "s"; "t"]%char ->
              Py.endswith (base +:+ String c EmptyString) t' = false).
    { intros t c' t' -> Hc'. apply endswith_last. intros ->. contradiction. }
    rewrite (Hlast ".pd" "f"%char ".pdf" eq_refl), (Hlast ".do" "c"%char ".doc" eq_refl),
      (Hlast ".doc" "x"%char ".docx" eq_refl), (Hlast ".xl" "s"%char ".xls" eq_refl),
      (Hlast ".xls" "x"%char ".xlsx" eq_refl), (Hlast ".tx" "t"%char ".txt" eq_refl)
      by set_solver.
    reflexivity.
Qed.


(** * Worked instances of the further properties *)



(** X3 at work: broken.txt fails in the library; the output of notes.txt is
    refused. *)
Lemma failed_conversion_keeps_the_saved_upload_witness :
  (exists w',
     Demo.process_file EmptyString 0 Demo.broken (Demo.ready [Demo.broken]) = (Ok [], w')
     /\ page w' = [Error "Error converting file: cannot convert"]
     /\ fs_files (fs w') !! "documents/broken.txt" = Some "bad")
  /\ (exists w',
        process_file Demo.guess_type (Faulty.refuse "converted") Demo.markitdown
          EmptyString None Demo.docs_dir Demo.converted_dir 1 [] 0 Demo.notes
          (Demo.ready [Demo.notes])
        = (Ok [], w')
        /\ converted_files (session w') = []
        /\ fs_files (fs w') !! "documents/notes.txt" = Some "hello").
Proof.
  split.
  - destruct (failed_conversion_keeps_the_saved_upload Demo.guess_type Demo.os_open
                Demo.markitdown EmptyString (client_for EmptyString) Demo.docs_dir
                Demo.converted_dir 3%nat [] 0%nat Demo.broken (Demo.ready [Demo.broken])
                (mkExn "ValueError" "cannot convert") eq_refl eq_refl (or_introl eq_refl))
      as (w' & H1 & H2 & _ & _ & _ & _ & H3).
    exists w'. split; [exact H1|]. split; [exact H2|]. now rewrite (H3 eq_refl).
  - destruct (failed_conversion_keeps_the_saved_upload Demo.guess_type
                (Faulty.refuse "converted") Demo.markitdown EmptyString None Demo.docs_dir
                Demo.converted_dir 1%nat [] 0%nat Demo.notes (Demo.ready [Demo.notes])
                (mkExn "PermissionError"
                   "[Errno 13] Permission denied: 'converted/notes.md'")
                eq_refl eq_refl)
      as (w' & H1 & _ & H2 & _ & _ & H3 & _).
    + right. exists "md:hello". split; reflexivity.
    + exists w'. split; [exact H1|]. split; [now rewrite H2|].
      rewrite H3 by discriminate. reflexivity.
Defined.

(** X4 at work: with a credential, the notices of a run are errors. *)
Lemma every_file_is_accounted_for_witness :
  exists w' notices,
    Demo.convert_files "sk-demo" (Demo.ready [Demo.notes; Demo.broken; Demo.photo])
    = (Ok tt, w')
    /\ (length notices + length (converted_files (session w')) = 3)%nat
    /\ Forall (fun e => is_error e = true) notices.
Proof.
  destruct (every_file_is_accounted_for Demo.guess_type Demo.os_open Demo.markitdown
              "sk-demo" Demo.docs_dir Demo.converted_dir
              (Demo.ready [Demo.notes; Demo.broken; Demo.photo]))
    as (w' & notices & H1 & _ & _ & H2 & H3 & _).
  exists w', notices. split; [exact H1|]. split; [exact H2|]. apply H3. discriminate.
Defined.

(** X6 at work: a file named documents, and a file named converted. *)
Lemma setup_failure_aborts_the_run_witness :
  (exists e w',
     Demo.run EmptyString [Demo.notes] true Faulty.blocked None = (Raise e, w')
     /\ exn_class e = "FileExistsError"
     /\ page w' = [Page_config "wide" "MarkItDown Converter"]
     /\ calls w' = [])
  /\ (exists e,
        (Demo.run EmptyString [Demo.notes] true Faulty.half_blocked None).1 = Raise e
        /\ exn_class e = "FileExistsError"
        /\ "documents"
           ∈ fs_dirs (fs (Demo.run EmptyString [Demo.notes] true Faulty.half_blocked None).2)).
Proof.
  pose proof (setup_failure_aborts_the_run Demo.guess_type Demo.os_open Demo.markitdown)
    as (Hblocked & Hhalf).
  split.
  - destruct (Hblocked (mkInputs false EmptyString [Demo.notes] true Demo.now)
                Faulty.blocked None) as (e & w' & H1 & H2 & H3 & _ & H4 & _).
    + left. split; [apply not_elem_of_empty|]. eexists. reflexivity.
    + exists e, w'. split; [exact H1|]. split; [exact H2|]. split; [exact H3|exact H4].
  - destruct (Hhalf (mkInputs false EmptyString [Demo.notes] true Demo.now)
                Faulty.half_blocked None) as (e & Hrun & Hclass).
    + apply not_elem_of_empty.
    + reflexivity.
    + apply not_elem_of_empty.
    + eexists. reflexivity.
    + exists e. unfold Demo.run. rewrite Hrun. split; [reflexivity|].
      split; [exact Hclass|]. cbn [snd fs fs_dirs]. apply elem_of_union_l.
      now apply elem_of_singleton.
Defined.

(** X7 at work: the first run of a session. *)
Lemma welcome_screen_until_conversion_starts_witness :
  Demo.run EmptyString [Demo.notes] false Demo.disk0 None
  = (Ok tt,
     mkWorld (with_directories Demo.disk0)
       (set_uploaded_files [Demo.notes] (initialize_session_state None))
       ([Page_config "wide" "MarkItDown Converter"]
        ++ sidebar_elements Demo.guess_type
             (mkInputs false EmptyString [Demo.notes] false Demo.now) false
        ++ [Title "🎯 Document to Markdown Converter"; Columns 2;
            Markdown welcome_text; Markdown features_text])
       None None []).
Proof.
  destruct (welcome_screen_until_conversion_starts Demo.guess_type Demo.os_open
              Demo.markitdown (mkInputs false EmptyString [Demo.notes] false Demo.now)
              Demo.disk0 None) as (H & _).
  - right. reflexivity.
  - right. reflexivity.
  - intros s [=].
  - reflexivity.
  - exact H.
Defined.

(** X8 at work: a run after the conversion of notes.txt. *)
Lemma results_are_not_shown_again_witness :
  let s := set_conversion_started true
             (set_converted_files
                [mkConverted "notes.txt" (Demo.converted_dir // "notes.md") "md:hello"
                   (PyBool false)]
                (initialize_session_state None)) in
  (Demo.run EmptyString [] false Demo.disk0 (Some s)).1 = Ok tt
  /\ List.filter is_download (page (Demo.run EmptyString [] false Demo.disk0 (Some s)).2) = []
  /\ length (converted_files
               (session (Demo.run EmptyString [] false Demo.disk0 (Some s)).2)) = 1%nat.
Proof.
  intros s.
  destruct (results_are_not_shown_again Demo.guess_type Demo.os_open Demo.markitdown
              (mkInputs false EmptyString [] false Demo.now) Demo.disk0 s)
    as (H1 & H2 & _ & H3).
  - right. reflexivity.
  - right. reflexivity.
  - reflexivity.
  - discriminate.
  - reflexivity.
  - unfold Demo.run. split; [now rewrite H1|]. split; [exact H3|].
    rewrite H1. cbn [snd session]. now rewrite H2.
Defined.

(** X9 at work: a session whose only file failed. *)
Lemma rerun_without_records_converts_again_witness :
  Demo.run EmptyString [Demo.broken] false Demo.disk0
    (Some (session (Demo.ready [Demo.broken])))
  = Demo.run EmptyString [Demo.broken] true Demo.disk0
      (Some (session (Demo.ready [Demo.broken]))).
Proof.
  exact (rerun_without_records_converts_again Demo.guess_type Demo.os_open Demo.markitdown
           false EmptyString [Demo.broken] Demo.now Demo.disk0
           (session (Demo.ready [Demo.broken])) eq_refl eq_refl).
Defined.

(** X10 at work: the saved copy of notes.txt is in the footprint. *)
Lemma script_only_adds_to_the_disk_witness :
  footprint (pathlib.parse "documents") (pathlib.parse "converted") [Demo.notes]
    "documents/notes.txt".
Proof.
  destruct (script_only_adds_to_the_disk Demo.guess_type Demo.os_open Demo.markitdown
              (mkInputs false EmptyString [Demo.notes] true Demo.now) Demo.disk0 None)
    as (_ & _ & _ & H).
  apply H. vm_compute. discriminate.
Defined.


(** X12 at work: a run whose only file fails. *)
Lemma completion_is_always_announced_witness :
  (Demo.run EmptyString [Demo.broken] true Demo.disk0 None).1 = Ok tt
  /\ List.filter is_download
       (page (Demo.run EmptyString [Demo.broken] true Demo.disk0 None).2)
     = [Download_button "📥 Download All as Single File" EmptyString
          "combined_markdown_20241225_090507.md" "text/markdown" "download_all"].
Proof.
  destruct (completion_is_always_announced Demo.guess_type Demo.os_open Demo.markitdown
              (mkInputs false EmptyString [Demo.broken] true Demo.now) Demo.disk0 None)
    as (_ & H).
  - right. reflexivity.
  - right. reflexivity.
  - reflexivity.
  - destruct H as (H1 & _ & H2); [vm_compute; reflexivity|].
    split; [exact H1|exact H2].
Defined.


(** X14 at work: an emptied uploader. *)
Lemma sidebar_renders_and_remembers_witness :
  exists w',
    create_sidebar Demo.guess_type (mkInputs true "sk-demo" [] false Demo.now)
      (Demo.ready [Demo.notes])
    = (Ok "sk-demo", w')
    /\ uploaded_files (session w') = [Demo.notes]
    /\ dark_mode (session w') = true
    /\ conversion_started (session w') = true.
Proof.
  destruct (sidebar_renders_and_remembers Demo.guess_type
              (mkInputs true "sk-demo" [] false Demo.now) (Demo.ready [Demo.notes]))
    as (extra & w' & H1 & _ & _ & _ & _ & _ & _ & _ & H2 & H3 & H4).
  exists w'. split; [exact H1|]. split; [exact H3|]. split; [exact H2|].
  now destruct (H4 eq_refl) as (_ & _ & ->).
Defined.

(** X15 at work: the session after two runs. *)
Lemma session_flags_are_stable_witness :
  let s := session (Demo.run EmptyString [Demo.notes] false Demo.disk0
                      (Some (session (Demo.run EmptyString [] false Demo.disk0 None).2))).2 in
  show_welcome s = true /\ needs_reset s = false /\ conversion_status s = [].
Proof.
  intros s.
  destruct (proj2 (session_flags_are_stable Demo.guess_type Demo.os_open Demo.markitdown) s)
    as (H1 & H2 & H3 & _).
  - apply reach_next, reach_first.
  - split; [exact H1|]. split; [exact H2|exact H3].
Defined.

(** X16 at work: notes.txt and report.pdf. *)
Lemma plain_names_are_saved_under_documents_witness :
  pathlib.str (pathlib.parse "documents" // "notes.txt") = "documents/notes.txt"
  /\ pathlib.str (pathlib.parse "documents" // "notes.txt")
     <> pathlib.str (pathlib.parse "documents" // "report.pdf")
  /\ (exists w',
        save_uploaded_file Demo.os_open Demo.notes (pathlib.parse "documents")
          (Demo.ready [Demo.notes])
        = (Ok (Some (pathlib.mkPath EmptyString ["documents"; "notes.txt"])), w')
        /\ fs_files (fs w') !! "documents/notes.txt" = Some "hello").
Proof.
  pose proof plain_names_are_saved_under_documents as (Hpath & Hdiff & Hsave).
  assert (H1 : plain_name "notes.txt") by (repeat split; discriminate).
  assert (H2 : plain_name "report.pdf") by (repeat split; discriminate).
  split; [|split].
  - exact (proj2 (Hpath "notes.txt" H1)).
  - apply (Hdiff "notes.txt" "report.pdf" H1 H2). discriminate.
  - destruct (Hsave Demo.os_open Demo.notes (Demo.ready [Demo.notes]) H1 eq_refl)
      as (w' & Hrun & Hfile & _).
    exists w'. split; [exact Hrun|exact Hfile].
Defined.

(** X17 at work: an upload named /tmp/x.txt. *)
Lemma absolute_names_leave_the_upload_directory_witness :
  pathlib.str (pathlib.parse "documents" // "/tmp/x.txt") = "/tmp/x.txt"
  /\ save_uploaded_file Demo.os_open (mkUploadedFile "/tmp/x.txt" "data")
       (pathlib.parse "documents") (Demo.ready [])
     = save_uploaded_file Demo.os_open (mkUploadedFile "/tmp/x.txt" "data")
         (pathlib.parse "converted") (Demo.ready []).
Proof.
  destruct (absolute_names_leave_the_upload_directory Demo.os_open
              (mkUploadedFile "/tmp/x.txt" "data") (pathlib.parse "documents")
              (pathlib.parse "converted") (Demo.ready []) eq_refl) as (H1 & _ & H2).
  split; [|exact H2]. cbn [name] in H1. rewrite H1. reflexivity.
Defined.

(** X18 at work: photo.png. *)
Lemma name_and_saved_path_are_classified_alike_witness :
  is_image_file Demo.guess_type (pathlib.str (pathlib.parse "documents" // "photo.png"))
  = is_image_file Demo.guess_type "photo.png".
Proof.
  destruct (name_and_saved_path_are_classified_alike Demo.types_map "photo.png")
    as (_ & H & _).
  - repeat split; discriminate.
  - reflexivity.
  - exact H.
Defined.

(** X19 at work: three names. *)
Lemma file_icon_by_kind_witness :
  get_file_icon Demo.guess_type "photo.png" = "🖼️"
  /\ get_file_icon Demo.guess_type "report.docx" = "📝"
  /\ get_file_icon Demo.guess_type "REPORT.PDF" = "📎".
Proof.
  split; [|split].
  - exact (proj1 (file_icon_by_kind Demo.guess_type EmptyString) "photo.png" eq_refl).
  - apply (proj1 (proj2 (file_icon_by_kind Demo.guess_type "report")) ".docx" "📝").
    + do 2 apply list_elem_of_further. apply list_elem_of_here.
    + reflexivity.
  - apply (proj2 (proj2 (file_icon_by_kind Demo.guess_type "REPORT.PD")) "F"%char).
    + intros H. repeat (apply elem_of_cons in H as [H|H]; [discriminate|]).
      now apply elem_of_nil in H.
    + reflexivity.
Defined.


(** * Checks of the library model against CPython 3.11 *)

Example ex_guess_png :
  mimetypes.guess_type (fun e => if String.eqb e ".png" then Some "image/png" else None)
    "Photo.PNG" = (Some "image/png", None).
Proof. reflexivity. Qed.

Example ex_guess_tgz :
  mimetypes.guess_type (fun e => if String.eqb e ".tar" then Some "application/x-tar" else None)
    "a.tgz" = (Some "application/x-tar", Some "gzip").
Proof. reflexivity. Qed.

Example ex_guess_data :
  mimetypes.guess_type (fun _ => None) "data:x.png" = (None, None).
Proof. reflexivity. Qed.

(** A name with a slash can read as a data URL, whatever follows. *)
Example ex_guess_data_url :
  mimetypes.guess_type (fun _ => None) "data:image/png,abc" = (Some "image/png", None)
  /\ mimetypes.guess_type (fun _ => None) "data:,abc" = (Some "text/plain", None)
  /\ (posixpath.splitext "data:image/png,abc").2 = EmptyString.
Proof. repeat split; reflexivity. Qed.

(** The same file is classified by its name in [main] and by its saved path
    in [convert_to_markdown]; the two can differ. *)
Example ex_name_and_path_differ :
  is_image_file Demo.guess_type "data:x.png" = PyNone
  /\ is_image_file Demo.guess_type (pathlib.str (Demo.docs_dir // "data:x.png")) = PyBool true.
Proof. split; reflexivity. Qed.

Example ex_splitext :
  posixpath.splitext "x.y:z" = ("x", ".y:z")
  /\ posixpath.splitext ".bashrc" = (".bashrc", EmptyString)
  /\ posixpath.splitext "foo." = ("foo", ".")
  /\ posixpath.splitext "a.tar.gz" = ("a.tar", ".gz").
Proof. repeat split; reflexivity. Qed.

Example ex_paths :
  pathlib.str (pathlib.parse "documents" // "a//b/./c/") = "documents/a/b/c"
  /\ pathlib.str (pathlib.parse "documents" // "//x/y") = "//x/y"
  /\ pathlib.str (pathlib.parse "documents" // "///x") = "/x"
  /\ pathlib.str (pathlib.parse "documents" // "") = "documents"
  /\ pathlib.str (pathlib.parse "documents" // ".") = "documents"
  /\ pathlib.str (pathlib.parse "documents" // "..") = "documents/.."
  /\ pathlib.stem (pathlib.parse "documents" // "..") = ".."
  /\ pathlib.stem (pathlib.parse "documents" // "a.") = "a."
  /\ pathlib.stem (pathlib.parse "documents" // "") = "documents"
  /\ pathlib.stem (pathlib.parse "documents" // "a/b.txt") = "b"
  /\ pathlib.str (pathlib.parse "") = ".".
Proof. repeat split; reflexivity. Qed.

Example ex_guess_more :
  (mimetypes.guess_type Demo.types_map "c:x.png").1 = Some "image/png"
  /\ (mimetypes.guess_type Demo.types_map ":x.png").1 = Some "image/png"
  /\ (mimetypes.guess_type Demo.types_map "x.y:z").1 = None
  /\ (mimetypes.guess_type Demo.types_map "foo.").1 = None
  /\ (mimetypes.guess_type Demo.types_map ".bashrc").1 = None
  /\ mimetypes.guess_type Demo.types_map "a.tar.gz" = (Some "application/x-tar", Some "gzip")
  /\ (mimetypes.guess_type Demo.types_map "DATA:image/png;base64,xx").1 = Some "image/png"
  /\ (mimetypes.guess_type Demo.types_map "data:a=b,c").1 = Some "text/plain"
  /\ (mimetypes.guess_type Demo.types_map "documents/data:x.png").1 = Some "image/png".
Proof. repeat split; reflexivity. Qed.

Example ex_strftime : strftime Demo.now = "20241225_090507".
Proof. reflexivity. Qed.

Example ex_stem :
  pathlib.stem (pathlib.parse "documents" // "report.final.pdf") = "report.final"
  /\ pathlib.stem (pathlib.parse "documents" // ".bashrc") = ".bashrc"
  /\ pathlib.str (pathlib.parse "converted" // "a.md") = "converted/a.md"
  /\ pathlib.str (pathlib.parse "documents" // "/etc/passwd") = "/etc/passwd".
Proof. repeat split; reflexivity. Qed.
